(** * Trend scoring engine of the daily signal feed

    A shallow embedding of [src/trend_scorer.py] (class [TrendScorer]) and a
    verification of the properties its specification states.

    Modelling conventions.
    - Python [float] is IEEE-754 binary64 with round-to-nearest-even: Rocq's
      primitive [float], whose operations are specified by [SpecFloat].
    - Python [int] is [Z].
    - Python exceptions are the [Raise] outcomes of the [result] monad.
    - Values read back from the JSON history file are [pyval] trees; a
      JSON number is an [int] or a [float], the infinities and NaN
      included, as [json.load] accepts them.
    - [sum] adds its items one after the other.  From CPython 3.12 on, a
      sum of several floats is compensated for the rounding of the
      additions and can differ in its last bits; nothing below depends on
      the value of a sum of several floats.
    - The length of a list or set is below 2^63: its conversion to [float]
      cannot overflow and is written [Z2F].
    - [str] is [string]; the text scanned by the regular expressions is
      ASCII (the Unicode classes of [re] are modelled on codes below 128).
    - Clock readings enter as arguments: ISO-8601 strings for the history
      window, microseconds since the epoch for the age of an article. *)

From Stdlib Require Import ZArith List String Ascii Bool Lia Floats.
From Stdlib Require Import Permutation Sorted.
Import ListNotations.
Set Warnings "-inexact-float,-register-all".
Local Open Scope string_scope.
Local Open Scope Z_scope.

(** ** Exceptions and fallible computations *)

Inductive exn : Type :=
| JSONDecodeError
| TypeError
| AttributeError
| OverflowError
| ZeroDivisionError
| ValueError
| UnicodeDecodeError
| OSError
| RecursionError.

Inductive result (A : Type) : Type :=
| Ok (a : A)
| Raise (e : exn).

Arguments Ok {A} a.
Arguments Raise {A} e.

Definition bind {A B : Type} (c : result A) (k : A -> result B) : result B :=
  match c with
  | Ok a => k a
  | Raise e => Raise e
  end.

Notation "x <- c ;; k" := (bind c (fun x => k))
  (at level 61, c at next level, right associativity).

(** [for x in l: acc = body(acc, x)], stopping at the first exception. *)
Fixpoint for_each {A S : Type} (body : S -> A -> result S) (l : list A) (acc : S)
  : result S :=
  match l with
  | [] => Ok acc
  | x :: rest => acc' <- body acc x ;; for_each body rest acc'
  end.

(** [[f(x) for x in l]], stopping at the first exception. *)
Fixpoint map_each {A B : Type} (f : A -> result B) (l : list A) : result (list B) :=
  match l with
  | [] => Ok []
  | x :: rest => y <- f x ;; ys <- map_each f rest ;; Ok (y :: ys)
  end.

(** ** Python values as [json.load] produces them *)

Inductive pyval : Type :=
| PNone
| PBool (b : bool)
| PInt (z : Z)
| PFloat (f : float)
| PStr (s : string)
| PList (l : list pyval)
| PDict (d : list (string * pyval)).

(** Dictionaries keep insertion order; keys are distinct. *)
Fixpoint assoc_get {V : Type} (d : list (string * V)) (key : string) : option V :=
  match d with
  | [] => None
  | (k, v) :: rest => if String.eqb k key then Some v else assoc_get rest key
  end.

(** [obj.get(key, default)]: only dictionaries have the method. *)
Definition py_get (obj : pyval) (key : string) (default : pyval) : result pyval :=
  match obj with
  | PDict d =>
      Ok (match assoc_get d key with Some v => v | None => default end)
  | _ => Raise AttributeError
  end.

(** [a >= b] on two values where [b] is a string: strings compare by code
    point, any other left operand is a [TypeError]. *)
Definition py_ge_str (a : pyval) (b : string) : result bool :=
  match a with
  | PStr s => Ok (String.leb b s)
  | _ => Raise TypeError
  end.

(** ** Floating point *)

(** An integer as an unnormalised binary float [m * 2^0]. *)
Definition Z2SF (z : Z) : spec_float :=
  match z with
  | Z0 => S754_zero false
  | Zpos p => S754_finite false p 0
  | Zneg p => S754_finite true p 0
  end.

(** [float(z)], correctly rounded; infinite when [z] is out of range. *)
Definition Z2F (z : Z) : float := SF2Prim (binary_normalize prec emax z 0 false).

(** The correctly rounded quotient of two integers. *)
Definition Z_truediv (a b : Z) : float :=
  SF2Prim (SFdiv prec emax (Z2SF a) (Z2SF b)).

(** [float(z)] for an arbitrary [int]: [OverflowError] past the range. *)
Definition float_of_int (z : Z) : result float :=
  let f := Z2F z in
  if is_finite f then Ok f else Raise OverflowError.

(** [a / b] on two [int]s. *)
Definition py_int_truediv (a b : Z) : result float :=
  if b =? 0 then Raise ZeroDivisionError
  else
    let q := Z_truediv a b in
    if is_finite q then Ok q else Raise OverflowError.

(** A number: the running total of [sum]. *)
Inductive num : Type :=
| NInt (z : Z)
| NFloat (f : float).

(** [acc + v] as [sum] computes it, from the [int] 0: integers and booleans
    add exactly; with a float on either side the other side is converted,
    which overflows for an integer out of range; anything else is no
    number. *)
Definition py_add (acc : num) (v : pyval) : result num :=
  match acc, v with
  | NInt a, PInt z => Ok (NInt (a + z))
  | NInt a, PBool b => Ok (NInt (a + (if b then 1 else 0)))
  | NInt a, PFloat f => x <- float_of_int a ;; Ok (NFloat (x + f))
  | NFloat a, PInt z => x <- float_of_int z ;; Ok (NFloat (a + x))
  | NFloat a, PBool b => Ok (NFloat (a + (if b then 1 else 0)))
  | NFloat a, PFloat f => Ok (NFloat (a + f))
  | _, _ => Raise TypeError
  end.

Definition py_sum (l : list pyval) : result num := for_each py_add l (NInt 0).

(** [total / n] for a total of [sum] and an [int]. *)
Definition py_truediv (total : num) (n : Z) : result float :=
  match total with
  | NInt z => py_int_truediv z n
  | NFloat f =>
      if n =? 0 then Raise ZeroDivisionError
      else d <- float_of_int n ;; Ok (f / d)%float
  end.

(** [min(a, b)] and [max(a, b)]: the first argument is kept unless the
    second is strictly smaller (resp. larger). *)
Definition py_min (a b : float) : float := if (b <? a)%float then b else a.
Definition py_max (a b : float) : float := if (a <? b)%float then b else a.

(** [max(iterable, default=d)]. *)
Definition py_max_default (l : list float) (d : float) : float :=
  match l with
  | [] => d
  | x :: rest => fold_left py_max rest x
  end.

(** [round(x, 2)]: the decimal with two fractional digits nearest to the
    exact value of [x] (ties to even), converted back to the nearest float. *)
Definition round_half_even (n d : Z) : Z :=
  let q := n / d in
  let r := n mod d in
  match 2 * r ?= d with
  | Lt => q
  | Gt => q + 1
  | Eq => if Z.even q then q else q + 1
  end.

Definition hundredths (m : positive) (e : Z) : Z :=
  match e with
  | Zneg p => round_half_even (100 * Zpos m) (2 ^ Zpos p)
  | _ => 100 * Zpos m * 2 ^ e
  end.

Definition SF_of_hundredths (s : bool) (k : Z) : spec_float :=
  match k with
  | Zpos p => SFdiv prec emax (S754_finite s p 0) (S754_finite false 100 0)
  | _ => S754_zero s
  end.

Definition py_round2 (x : float) : float :=
  match Prim2SF x with
  | S754_finite s m e => SF2Prim (SF_of_hundredths s (hundredths m e))
  | _ => x
  end.

(** ** Stable descending sort: [sorted(l, key=key, reverse=True)]

    On keys that are totally ordered every stable sort returns the list
    below.  A NaN is not ordered with the other floats: for a list with a
    NaN among the keys the order below is the one of this insertion, which
    need not be the one Python's algorithm returns. *)

Section Sorting.
Context {A K : Type}.
Variable lt : K -> K -> bool.
Variable key : A -> K.

(** [x] precedes the elements of [l] in the input: it goes before the first
    element whose key is not strictly larger. *)
Fixpoint insert_desc (x : A) (l : list A) : list A :=
  match l with
  | [] => [x]
  | y :: rest =>
      if lt (key x) (key y) then y :: insert_desc x rest else x :: y :: rest
  end.

Fixpoint sorted_desc (l : list A) : list A :=
  match l with
  | [] => []
  | x :: rest => insert_desc x (sorted_desc rest)
  end.

(** The order of the result: no element is followed by one with a strictly
    larger key. *)
Definition not_below (a b : A) : Prop := lt (key a) (key b) = false.

End Sorting.

(** ** Module constants *)

Definition TOP_TRENDING_COUNT : nat := 15.

Definition STOP_TERMS : list string :=
  [ "the"; "and"; "for"; "that"; "this"; "with"; "from"; "are"; "was";
    "has"; "have"; "will"; "can"; "but"; "not"; "you"; "all"; "they";
    "their"; "its"; "our"; "your"; "one"; "two"; "new"; "more"; "how";
    "what"; "when"; "who"; "why"; "would"; "could"; "should";
    "about"; "into"; "than"; "been"; "just"; "also"; "some"; "very";
    "most"; "like"; "over"; "after"; "before"; "between"; "under";
    "through"; "during"; "first"; "last"; "next"; "other"; "many";
    "much"; "each"; "every"; "both"; "any" ].

(** ** History averages and velocity *)

(** The loop of [_get_historical_avg] building [counts]. *)
Definition snapshot_count (term : string) (snapshot : pyval) : result pyval :=
  mentions <- py_get snapshot "mentions" (PDict []) ;;
  py_get mentions term (PInt 0).

Definition _get_historical_avg (history : list pyval) (term : string)
  : result float :=
  match history with
  | [] => Ok 0%float
  | _ =>
      counts <- map_each (snapshot_count term) history ;;
      match counts with
      | [] => Ok 0%float
      | _ =>
          total <- py_sum counts ;;
          py_truediv total (Z.of_nat (List.length counts))
      end
  end.

Definition _calculate_velocity (history : list pyval) (term : string)
  (current_count : Z) : result float :=
  hist_avg <- _get_historical_avg history term ;;
  if (hist_avg =? 0)%float then
    Ok (if 2 <=? current_count then 2%float else 1.5%float)
  else
    count <- float_of_int current_count ;;
    let velocity := (count / hist_avg)%float in
    Ok (py_min velocity 10%float).

(** ** The regular expressions of [_extract_terms]

    [re.findall] scans left to right and reports non-overlapping matches.
    Each pattern is given as a matcher: from the character before the
    current position and the text from the current position on, the length
    of the match found there (never zero) and the string reported. *)

Definition code (c : ascii) : nat := nat_of_ascii c.

Definition in_range (lo hi : nat) (c : ascii) : bool :=
  ((lo <=? code c) && (code c <=? hi))%nat.

Definition is_upper (c : ascii) : bool := in_range 65 90 c.
Definition is_lower (c : ascii) : bool := in_range 97 122 c.
Definition is_digit (c : ascii) : bool := in_range 48 57 c.

(** [[A-Za-z0-9]] *)
Definition is_alnum (c : ascii) : bool := is_upper c || is_lower c || is_digit c.

(** [\w] *)
Definition is_word (c : ascii) : bool := is_alnum c || (code c =? 95)%nat.

(** [\s]: tab to carriage return, the four separators, and space. *)
Definition is_space (c : ascii) : bool := in_range 9 13 c || in_range 28 32 c.

Definition is_word_opt (c : option ascii) : bool :=
  match c with
  | Some c => is_word c
  | None => false
  end.

Definition matcher : Type := option ascii -> list ascii -> option (nat * list ascii).

Fixpoint findall_from (m : matcher) (prev : option ascii) (skip : nat)
  (s : list ascii) : list string :=
  match s with
  | [] => []
  | c :: rest =>
      match skip with
      | S k => findall_from m (Some c) k rest
      | O =>
          match m prev s with
          | Some (len, found) =>
              string_of_list_ascii found :: findall_from m (Some c) (pred len) rest
          | None => findall_from m (Some c) O rest
          end
      end
  end.

Definition findall (m : matcher) (text : string) : list string :=
  findall_from m None O (list_ascii_of_string text).

(** The capitalised-phrase pattern: a word boundary, a word [W] made of an
    upper-case letter and any number of [[A-Za-z0-9]], any number of groups
    of one or more [\s] followed by another [W], and a word boundary.  After
    the first letter the scan is either inside a word or inside the blanks
    after one;
    [best] is the end of the last word known to end at a word boundary,
    where the match falls back when a later word cannot be completed. *)
Inductive caps_state : Type := InWord | InGap.

Fixpoint caps_scan (st : caps_state) (pos : nat) (best : option nat)
  (s : list ascii) : option nat :=
  match st, s with
  | InWord, [] => Some pos
  | InWord, c :: rest =>
      if is_alnum c then caps_scan InWord (S pos) best rest
      else if is_space c then caps_scan InGap (S pos) (Some pos) rest
      else if is_word c then best
      else Some pos
  | InGap, [] => best
  | InGap, c :: rest =>
      if is_space c then caps_scan InGap (S pos) best rest
      else if is_upper c then caps_scan InWord (S pos) best rest
      else best
  end.

Definition caps_pattern : matcher := fun prev s =>
  match s with
  | c :: rest =>
      if is_upper c && negb (is_word_opt prev) then
        match caps_scan InWord 1 None rest with
        | Some n => Some (n, firstn n s)
        | None => None
        end
      else None
  | [] => None
  end.

(** The acronym pattern: two to six upper-case letters between two word
    boundaries. *)
Fixpoint upper_run (limit : nat) (s : list ascii) : nat :=
  match limit, s with
  | S l, c :: rest => if is_upper c then S (upper_run l rest) else O
  | _, _ => O
  end.

Definition acronym_pattern : matcher := fun prev s =>
  if is_word_opt prev then None
  else
    let n := upper_run 6 s in
    if (2 <=? n)%nat && negb (is_word_opt (nth_error s n))
    then Some (n, firstn n s)
    else None.

(** The hashtag pattern: a hash sign and one or more [\w]; the reported
    string is the group, without the sign. *)
Fixpoint word_run (s : list ascii) : list ascii :=
  match s with
  | c :: rest => if is_word c then c :: word_run rest else []
  | [] => []
  end.

Definition hashtag_pattern : matcher := fun _ s =>
  match s with
  | c :: rest =>
      if (code c =? 35)%nat then
        match word_run rest with
        | [] => None
        | w => Some (S (List.length w), w)
        end
      else None
  | [] => None
  end.

(** [str.lower] and [str.strip] *)
Definition lower_char (c : ascii) : ascii :=
  if is_upper c then ascii_of_nat (code c + 32) else c.

Definition py_lower (s : string) : string :=
  string_of_list_ascii (map lower_char (list_ascii_of_string s)).

Fixpoint lstrip (s : list ascii) : list ascii :=
  match s with
  | c :: rest => if is_space c then lstrip rest else s
  | [] => []
  end.

Definition py_strip (s : string) : string :=
  string_of_list_ascii (rev (lstrip (rev (lstrip (list_ascii_of_string s))))).

Definition str_in (s : string) (l : list string) : bool := existsb (String.eqb s) l.

Definition _extract_terms (text : string) : list string :=
  match text with
  | EmptyString => []
  | _ =>
      let caps := findall caps_pattern text in
      let from_caps :=
        filter (fun cleaned =>
                  (2 <=? String.length cleaned)%nat
                  && negb (str_in (py_lower cleaned) STOP_TERMS))
               (map py_strip caps) in
      let acronyms := findall acronym_pattern text in
      let from_acronyms :=
        filter (fun acr => negb (str_in (py_lower acr) STOP_TERMS)) acronyms in
      let hashtags := findall hashtag_pattern text in
      (from_caps ++ from_acronyms ++ hashtags)%list
  end.

(** ** Articles and the scorer's state *)

(** An article dictionary.  [None] in one of the first five fields stands
    for an absent key ([engagement] also for the value [None]);
    [other_fields] holds the keys the scorer never touches. *)
Record article : Type := {
  title : option string;
  summary : option string;
  source : option string;
  published : option Z;
  engagement : option (list (string * Z));
  trend_score : float;
  is_trending : bool;
  other_fields : list (string * pyval)
}.

(** [current_mentions] is a [Counter], [current_sources] a
    [defaultdict(set)]; both are kept in insertion order.  Python lists a
    set in an unspecified order: only the size of a source set and the
    length of the sample taken from it are meaningful. *)
Record TrendScorer : Type := {
  history : list pyval;
  current_mentions : list (string * Z);
  current_sources : list (string * list string)
}.

(** [counter[term] += 1] *)
Fixpoint counter_incr (cm : list (string * Z)) (term : string)
  : list (string * Z) :=
  match cm with
  | [] => [(term, 1)]
  | (k, n) :: rest =>
      if String.eqb k term then (k, n + 1) :: rest
      else (k, n) :: counter_incr rest term
  end.

Definition set_add (x : string) (s : list string) : list string :=
  if str_in x s then s else (s ++ [x])%list.

(** [sources[term].add(src)] *)
Fixpoint sources_add (cs : list (string * list string)) (term src : string)
  : list (string * list string) :=
  match cs with
  | [] => [(term, [src])]
  | (k, s) :: rest =>
      if String.eqb k term then (k, set_add src s) :: rest
      else (k, s) :: sources_add rest term src
  end.

(** [counter[term]] and [sources[term]], with their defaults. *)
Definition count_of (cm : list (string * Z)) (term : string) : Z :=
  match assoc_get cm term with Some n => n | None => 0 end.

Definition sources_of (cs : list (string * list string)) (term : string)
  : list string :=
  match assoc_get cs term with Some s => s | None => [] end.

(** [d[key] = v] *)
Fixpoint dict_set {V : Type} (d : list (string * V)) (key : string) (v : V)
  : list (string * V) :=
  match d with
  | [] => [(key, v)]
  | (k, w) :: rest =>
      if String.eqb k key then (k, v) :: rest else (k, w) :: dict_set rest key v
  end.

(** [Counter.most_common(n)] *)
Definition most_common (n : nat) (cm : list (string * Z)) : list (string * Z) :=
  firstn n (sorted_desc Z.ltb snd cm).

Definition text_of (a : article) : string :=
  ((match title a with Some s => s | None => "" end)
   ++ " " ++
   (match summary a with Some s => s | None => "" end))%string.

Definition source_of (a : article) : string :=
  match source a with Some s => s | None => "" end.

(** The cross-source bonus, written out twice in the source. *)
Definition cross_source_bonus (num_sources : nat) : float :=
  py_min (1 + 0.15 * Z2F (Z.of_nat num_sources - 1))%float 2%float.

(** A record of [get_trending_topics]. *)
Record topic : Type := {
  topic_term : string;
  topic_mentions : Z;
  topic_sources : list string;
  topic_num_sources : nat;
  topic_velocity : float;
  topic_direction : string;
  topic_score : float
}.

Section Scoring.

(** [math.log10] on a positive [int], and the reading of the clock in
    microseconds since the epoch (one reading for the whole pass). *)
Variable log10 : Z -> float.
Variable now : Z.

Definition _temporal_weight (pub_date : Z) : float :=
  let total_seconds := Z_truediv (now - pub_date) 1000000 in
  let hours_old := (total_seconds / 3600)%float in
  if (hours_old <? 1)%float then 1%float
  else if (hours_old <? 6)%float then 0.85%float
  else if (hours_old <? 12)%float then 0.7%float
  else if (hours_old <? 24)%float then 0.5%float
  else 0.3%float.

Definition _engagement_factor (a : article) : result float :=
  match engagement a with
  | None | Some [] => Ok 1%float
  | Some metrics =>
      let get k := match assoc_get metrics k with Some n => n | None => 0 end in
      let likes := get "likes" in
      let retweets := get "retweets" in
      let replies := get "replies" in
      let upvotes := get "upvotes" in
      let total := likes + retweets * 2 + replies + upvotes in
      if total =? 0 then Ok 1%float
      else if 1 + total <=? 0 then Raise ValueError
      else Ok (1 + log10 (1 + total) * 0.2)%float
  end.

(** Phase 1: count the mentions and record the sources. *)
Definition count_term (src : string) (st : TrendScorer) (term : string)
  : TrendScorer :=
  {| history := history st;
     current_mentions := counter_incr (current_mentions st) term;
     current_sources := sources_add (current_sources st) term src |}.

Definition count_article (st : TrendScorer) (a : article) : TrendScorer :=
  fold_left (count_term (source_of a)) (_extract_terms (text_of a)) st.

Definition count_mentions (st : TrendScorer) (articles : list article)
  : TrendScorer :=
  fold_left count_article articles st.

(** Phase 2: the score of every term mentioned at least twice. *)
Definition score_term (st : TrendScorer) (term_scores : list (string * float))
  (item : string * Z) : result (list (string * float)) :=
  let (term, count) := item in
  if count <? 2 then Ok term_scores
  else
    velocity <- _calculate_velocity (history st) term count ;;
    let num_sources := List.length (sources_of (current_sources st) term) in
    let cross_source :=
      py_min (1 + 0.15 * Z2F (Z.of_nat num_sources - 1))%float 2%float in
    Ok (dict_set term_scores term (velocity * cross_source)%float).

Definition score_terms (st : TrendScorer) : result (list (string * float)) :=
  for_each (score_term st) (current_mentions st) [].

(** Phase 3: the score of one article. *)
Definition term_score_of (term_scores : list (string * float)) (t : string)
  : float :=
  match assoc_get term_scores t with Some v => v | None => 0%float end.

Definition max_term_score (term_scores : list (string * float)) (a : article)
  : float :=
  py_max_default (map (term_score_of term_scores) (_extract_terms (text_of a)))
                 0%float.

Definition set_trend_score (a : article) (v : float) : article :=
  {| title := title a; summary := summary a; source := source a;
     published := published a; engagement := engagement a;
     trend_score := v; is_trending := is_trending a;
     other_fields := other_fields a |}.

Definition set_is_trending (a : article) (b : bool) : article :=
  {| title := title a; summary := summary a; source := source a;
     published := published a; engagement := engagement a;
     trend_score := trend_score a; is_trending := b;
     other_fields := other_fields a |}.

Definition score_article (term_scores : list (string * float)) (a : article)
  : result article :=
  let best := max_term_score term_scores a in
  factor <- _engagement_factor a ;;
  let temporal :=
    _temporal_weight (match published a with Some d => d | None => now end) in
  Ok (set_trend_score a (py_round2 (best * factor * temporal)%float)).

(** Phase 4: the cutoff and the flags. *)
Definition trending_threshold (articles : list article) : float :=
  let sorted_articles := sorted_desc PrimFloat.ltb trend_score articles in
  if (TOP_TRENDING_COUNT <=? List.length sorted_articles)%nat then
    match nth_error sorted_articles (TOP_TRENDING_COUNT - 1) with
    | Some a => trend_score a
    | None => 0.5%float
    end
  else 0.5%float.

Definition flag_trending (threshold : float) (a : article) : article :=
  set_is_trending a
    (py_max threshold 0.5%float <=? trend_score a)%float.

Definition score_articles (st : TrendScorer) (articles : list article)
  : result (TrendScorer * list article) :=
  let st1 := count_mentions st articles in
  term_scores <- score_terms st1 ;;
  scored <- map_each (score_article term_scores) articles ;;
  let trending_threshold := trending_threshold scored in
  Ok (st1, map (flag_trending trending_threshold) scored).

End Scoring.

(** ** Trending topics *)

Definition classify_direction (hist_avg velocity : float) : string :=
  if (hist_avg =? 0)%float then "new"
  else if (1.5 <? velocity)%float then "up"
  else if (0.8 <? velocity)%float then "stable"
  else "down".

Definition topic_of (st : TrendScorer) (term_data : list (string * topic))
  (item : string * Z) : result (list (string * topic)) :=
  let (term, count) := item in
  if count <? 2 then Ok term_data
  else
    velocity <- _calculate_velocity (history st) term count ;;
    if (velocity <? 1)%float then Ok term_data
    else
      let sources := firstn 5 (sources_of (current_sources st) term) in
      hist_avg <- _get_historical_avg (history st) term ;;
      let direction := classify_direction hist_avg velocity in
      let num_sources := List.length (sources_of (current_sources st) term) in
      let cross_source :=
        py_min (1 + 0.15 * Z2F (Z.of_nat num_sources - 1))%float 2%float in
      let score := (velocity * cross_source)%float in
      Ok (dict_set term_data term
            {| topic_term := term;
               topic_mentions := count;
               topic_sources := sources;
               topic_num_sources := num_sources;
               topic_velocity := py_round2 velocity;
               topic_direction := direction;
               topic_score := py_round2 score |}).

Definition get_trending_topics (st : TrendScorer) (articles : list article)
  : result (list topic) :=
  term_data <- for_each (topic_of st) (most_common 100 (current_mentions st)) [] ;;
  let sorted_topics := sorted_desc PrimFloat.ltb topic_score (map snd term_data) in
  Ok (firstn TOP_TRENDING_COUNT sorted_topics).

(** ** The history file *)

(** What [open] and [json.load] find at the path: no file, a file that
    cannot be opened, bytes that are not UTF-8, a text that is not JSON, a
    JSON text with an integer literal beyond the digit limit of [int], a
    JSON text nested beyond the recursion limit, or a document. *)
Inductive history_file : Type :=
| Absent
| Unreadable
| NotUtf8
| NotJson
| HugeInt
| TooDeep
| Json (data : pyval).

Definition file_exists (f : history_file) : bool :=
  match f with
  | Absent => false
  | _ => true
  end.

Definition read_json (f : history_file) : result pyval :=
  match f with
  | Absent | Unreadable => Raise OSError
  | NotUtf8 => Raise UnicodeDecodeError
  | NotJson => Raise JSONDecodeError
  | HugeInt => Raise ValueError
  | TooDeep => Raise RecursionError
  | Json data => Ok data
  end.

(** [for s in data]: lists yield their elements, dictionaries their keys,
    strings their characters; nothing else is iterable. *)
Definition py_iter (data : pyval) : result (list pyval) :=
  match data with
  | PList l => Ok l
  | PDict d => Ok (map (fun kv => PStr (fst kv)) d)
  | PStr s => Ok (map (fun c => PStr (String c EmptyString)) (list_ascii_of_string s))
  | _ => Raise TypeError
  end.

(** [[s for s in l if s.get("timestamp", "") >= cutoff]] *)
Fixpoint prune (cutoff : string) (l : list pyval) : result (list pyval) :=
  match l with
  | [] => Ok []
  | s :: rest =>
      ts <- py_get s "timestamp" (PStr "") ;;
      keep <- py_ge_str ts cutoff ;;
      kept <- prune cutoff rest ;;
      Ok (if keep then s :: kept else kept)
  end.

Definition corrupted_warning : string := "Trends: Corrupted history, starting fresh.".

(** [_load_history]: the history returned or the exception that leaves the
    method, and the warnings logged. *)
Definition _load_history (cutoff : string) (f : history_file)
  : result (list pyval) * list string :=
  if file_exists f then
    match (data <- read_json f ;; items <- py_iter data ;; prune cutoff items) with
    | Ok recent => (Ok recent, [])
    | Raise JSONDecodeError | Raise TypeError => (Ok [], [corrupted_warning])
    | Raise e => (Raise e, [])
    end
  else (Ok [], []).

(** [TrendScorer(history_file)]: the loaded history and empty counters. *)
Definition fresh_scorer (h : list pyval) : TrendScorer :=
  {| history := h; current_mentions := []; current_sources := [] |}.

Definition new_scorer (cutoff : string) (f : history_file) : result TrendScorer :=
  h <- fst (_load_history cutoff f) ;;
  Ok (fresh_scorer h).

(** [save_history]: [timestamp] and [cutoff] are the two readings of the
    clock; the file written holds the JSON text of the pruned history (the
    write itself is taken to succeed). *)
Definition snapshot_of (timestamp : string) (cm : list (string * Z)) : pyval :=
  PDict [ ("timestamp", PStr timestamp);
          ("mentions", PDict (map (fun tc => (fst tc, PInt (snd tc)))
                                  (most_common 200 cm))) ].

Definition save_history (timestamp cutoff : string) (st : TrendScorer)
  : result (TrendScorer * history_file) :=
  let snapshot := snapshot_of timestamp (current_mentions st) in
  let appended := (history st ++ [snapshot])%list in
  kept <- prune cutoff appended ;;
  Ok ({| history := kept;
         current_mentions := current_mentions st;
         current_sources := current_sources st |},
      Json (PList kept)).

(** ** Well-formed histories

    The snapshots [save_history] writes: dictionaries whose ["mentions"],
    when present, maps terms to integers. *)

Definition is_int (v : pyval) : bool :=
  match v with
  | PInt _ => true
  | _ => false
  end.

Definition wf_snapshot (s : pyval) : bool :=
  match s with
  | PDict d =>
      match assoc_get d "mentions" with
      | None => true
      | Some (PDict m) => forallb (fun kv => is_int (snd kv)) m
      | Some _ => false
      end
  | _ => false
  end.

Definition wf_history (h : list pyval) : bool := forallb wf_snapshot h.

(** The count of a term in a snapshot, zero where the term is absent. *)
Definition mentions_in (term : string) (snapshot : pyval) : Z :=
  match snapshot with
  | PDict d =>
      match assoc_get d "mentions" with
      | Some (PDict m) =>
          match assoc_get m term with
          | Some (PInt z) => z
          | _ => 0
          end
      | _ => 0
      end
  | _ => 0
  end.

Definition total_mentions (term : string) (h : list pyval) : Z :=
  fold_right Z.add 0 (map (mentions_in term) h).

Definition SF_is_finite (x : spec_float) : bool :=
  match x with
  | S754_zero _ | S754_finite _ _ _ => true
  | _ => false
  end.

(** ** Vocabulary of the statements *)

(** [kept] is a top [n] by count of the counter [cm]: terms of [cm],
    none twice, [n] of them or all the terms when there are fewer, and none
    of them mentioned less often than a term left out. *)
Definition top_by_count (n : nat) (cm : list (string * Z)) (kept : list string)
  : Prop :=
  NoDup kept
  /\ List.length kept = Nat.min n (List.length cm)
  /\ (forall t, In t kept -> In t (map fst cm))
  /\ (forall t t', In t kept -> In t' (map fst cm) -> ~ In t' kept ->
        count_of cm t' <= count_of cm t).

(** The terms of a batch, in the order phase 1 meets them. *)
Definition batch_terms (articles : list article) : list string :=
  flat_map (fun a => _extract_terms (text_of a)) articles.

(** How a record of [get_trending_topics] derives from the scorer's state:
    [velocity] is the velocity before rounding, [hist_avg] the average the
    direction is read from. *)
Record topic_from (st : TrendScorer) (r : topic) (velocity hist_avg : float)
  : Prop := {
  tf_item : In (topic_term r, topic_mentions r) (current_mentions st);
  tf_count : 2 <= topic_mentions r;
  tf_velocity :
    _calculate_velocity (history st) (topic_term r) (topic_mentions r) = Ok velocity;
  tf_kept : (velocity <? 1)%float = false;
  tf_avg : _get_historical_avg (history st) (topic_term r) = Ok hist_avg;
  tf_sources :
    topic_sources r = firstn 5 (sources_of (current_sources st) (topic_term r));
  tf_num_sources :
    topic_num_sources r
    = List.length (sources_of (current_sources st) (topic_term r));
  tf_rounded_velocity : topic_velocity r = py_round2 velocity;
  tf_direction : topic_direction r = classify_direction hist_avg velocity;
  tf_score :
    topic_score r
    = py_round2 (velocity * cross_source_bonus (topic_num_sources r))%float
}.



(** ** A sample run

    Three articles whose titles mention GPT-5, from two sources, scored by
    a scorer without history; engagement is absent, so [math.log10] is never
    called, and the articles are taken as just published. *)

Definition sample_article (t src : string) : article :=
  {| title := Some t; summary := Some ""; source := Some src;
     published := None; engagement := None;
     trend_score := 0%float; is_trending := false;
     other_fields := [("type", PStr "rss")] |}.

Definition gpt5_batch : list article :=
  [ sample_article "GPT-5 released today" "TechCrunch";
    sample_article "OpenAI ships GPT-5" "The Verge";
    sample_article "First benchmarks of GPT-5" "TechCrunch" ].

Definition no_log10 (z : Z) : float := 0%float.

Definition gpt5_counted : TrendScorer :=
  count_mentions (fresh_scorer []) gpt5_batch.

Definition gpt5_scored : list article :=
  Eval vm_compute in
    match score_articles no_log10 0 (fresh_scorer []) gpt5_batch with
    | Ok r => snd r
    | Raise _ => []
    end.

Definition gpt5_topic : topic :=
  {| topic_term := "GPT";
     topic_mentions := 6;
     topic_sources := ["TechCrunch"; "The Verge"];
     topic_num_sources := 2;
     topic_velocity := 2%float;
     topic_direction := "new";
     topic_score := 2.3%float |}.

(** Eighteen articles, to go past the fifteen of the cutoff. *)
Definition large_batch : list article :=
  flat_map (fun _ => gpt5_batch) (seq 0 6).

Definition large_scored : list article :=
  Eval vm_compute in
    match score_articles no_log10 0 (fresh_scorer []) large_batch with
    | Ok r => snd r
    | Raise _ => []
    end.

(** Two retained snapshots, and the readings of the clock around a save
    made a week after the first of them. *)
Definition sample_history : list pyval :=
  [ PDict [ ("timestamp", PStr "2024-05-01T09:00:00.000000+00:00");
            ("mentions", PDict [("GPT", PInt 2); ("OpenAI", PInt 4)]) ];
    PDict [ ("timestamp", PStr "2024-05-02T09:00:00.000000+00:00");
            ("mentions", PDict [("GPT", PInt 2)]) ] ].

Definition sample_scorer : TrendScorer :=
  {| history := sample_history;
     current_mentions := current_mentions gpt5_counted;
     current_sources := current_sources gpt5_counted |}.

Definition save_time : string := "2024-05-08T09:30:00.000000+00:00".
Definition save_cutoff : string := "2024-05-01T09:30:00.000001+00:00".
Definition load_cutoff : string := "2024-05-01T09:31:00.000000+00:00".




(** The characters a term can be made of: [\w] and [\s]. *)
Definition term_char (c : ascii) : bool := is_word c || is_space c.

(** The position of a number in the order of the floats, read
    lexicographically: class and sign, then exponent, then mantissa. *)
Definition SFrank (x : spec_float) : Z * Z * Z :=
  match x with
  | S754_infinity true => (-2, 0, 0)
  | S754_finite true m e => (-1, - e, - Zpos m)
  | S754_zero _ | S754_nan => (0, 0, 0)
  | S754_finite false m e => (1, e, Zpos m)
  | S754_infinity false => (2, 0, 0)
  end.

Definition lex_le (p q : Z * Z * Z) : Prop :=
  let '(a1, b1, c1) := p in
  let '(a2, b2, c2) := q in
  a1 < a2 \/ (a1 = a2 /\ (b1 < b2 \/ (b1 = b2 /\ c1 <= c2))).


(** ** Vocabulary of the further properties *)

(** The test of the pruning comprehension on a snapshot it can evaluate:
    the timestamp, the empty string where the key is absent, is at least
    the cutoff. *)
Definition recent (cutoff : string) (s : pyval) : bool :=
  match s with
  | PDict d =>
      match assoc_get d "timestamp" with
      | Some (PStr ts) => String.leb cutoff ts
      | None => String.leb cutoff ""
      | Some _ => false
      end
  | _ => false
  end.

(** A dictionary whose timestamp, when present, is a string. *)
Definition has_snapshot_shape (s : pyval) : bool :=
  match s with
  | PDict d =>
      match assoc_get d "timestamp" with
      | Some (PStr _) | None => true
      | Some _ => false
      end
  | _ => false
  end.

(** A character that starts no match of the three patterns: not an
    upper-case letter and not the hash sign. *)
Definition starts_no_term (c : ascii) : bool :=
  negb (is_upper c) && negb (code c =? 35)%nat.

(** The counters of a scorer agree with each other: a term has no more
    sources than mentions, at least one source once it is counted, and its
    source set holds no source twice. *)
Definition counters_consistent (st : TrendScorer) : Prop :=
  forall t,
    Z.of_nat (List.length (sources_of (current_sources st) t))
    <= count_of (current_mentions st) t
    /\ (0 < count_of (current_mentions st) t ->
        (1 <= List.length (sources_of (current_sources st) t))%nat)
    /\ NoDup (sources_of (current_sources st) t).

(** A batch where no term is met twice, and the GPT-5 batch followed by an
    article whose only term is met once. *)
Definition quiet_batch : list article :=
  [ sample_article "Nvidia earnings beat" "Reuters";
    sample_article "markets fall again" "Reuters" ].

Definition mixed_batch : list article :=
  (gpt5_batch ++ [sample_article "Nvidia earnings beat" "Reuters"])%list.

Definition mixed_scored : list article :=
  Eval vm_compute in
    match score_articles no_log10 0 (fresh_scorer []) mixed_batch with
    | Ok r => snd r
    | Raise _ => []
    end.

(** The dictionary of records [get_trending_topics] builds: distinct keys,
    each the term of its record. *)
Definition keyed_by_term (td : list (string * topic)) : Prop :=
  NoDup (map fst td) /\ forall kv, In kv td -> topic_term (snd kv) = fst kv.

(** [likes + (retweets * 2) + replies + upvotes], each metric read with
    [engagement.get(key, 0)]. *)
Definition engagement_total (metrics : list (string * Z)) : Z :=
  let get k := match assoc_get metrics k with Some n => n | None => 0 end in
  get "likes" + get "retweets" * 2 + get "replies" + get "upvotes".

(** A snapshot on which [_get_historical_avg] cannot read the mentions: it
    is no dictionary, or its "mentions" entry is no dictionary. *)
Definition mentions_unreadable (s : pyval) : bool :=
  match s with
  | PDict d =>
      match assoc_get d "mentions" with
      | None | Some (PDict _) => false
      | Some _ => true
      end
  | _ => true
  end.


Definition sample_topic : topic :=
  {| topic_term := "GPT";
     topic_mentions := 6;
     topic_sources := ["TechCrunch"; "The Verge"];
     topic_num_sources := 2;
     topic_velocity := 3%float;
     topic_direction := "up";
     topic_score := 3.45%float |}.

(** A snapshot with a recent time stamp whose mentions are a list, and an
    article with more downvotes than votes. *)
Definition list_snapshot : pyval :=
  PDict [ ("timestamp", PStr "2024-05-07T09:00:00.000000+00:00");
          ("mentions", PList [PStr "GPT"]) ].

Definition downvoted_article : article :=
  {| title := Some "GPT-5 is overrated"; summary := None;
     source := Some "r/MachineLearning";
     published := None; engagement := Some [("upvotes", -3)];
     trend_score := 0%float; is_trending := false;
     other_fields := [] |}.

(** ** The momentum of the summary

    [SummaryGenerator._calculate_momentum], on the records
    [get_trending_topics] returns, which all carry a direction.  The
    directions counted are those of the first ten records, so the counts
    are at most ten and the conversions to [float] are exact. *)
Definition _calculate_momentum (trending_topics : list topic) : string :=
  match trending_topics with
  | [] => "quiet"
  | _ =>
      let directions := map topic_direction (firstn 10 trending_topics) in
      let count d := Z.of_nat (count_occ string_dec directions d) in
      let up_count := count "up" + count "new" in
      let stable_count := count "stable" in
      let total := Z.of_nat (List.length directions) in
      if total =? 0 then "quiet"
      else
        let up_ratio := Z_truediv up_count total in
        if (0.6 <? up_ratio)%float then "accelerating"
        else if (0.3 <? up_ratio)%float then "active"
        else if (Z2F total * 0.5 <? Z2F stable_count)%float then "steady"
        else "quiet"
  end.

(** The outcome for [u] rising and [n - u] stable topics among [n], for
    every [n] from one to ten. *)
Definition momentum_table : bool :=
  forallb
    (fun n =>
       forallb
         (fun u =>
            let up_ratio := Z_truediv (Z.of_nat u) (Z.of_nat n) in
            let steady :=
              (Z2F (Z.of_nat n) * 0.5 <? Z2F (Z.of_nat (n - u)))%float in
            ((0.6 <? up_ratio)%float || (0.3 <? up_ratio)%float || steady)
            && (negb (u =? n)%nat || (0.6 <? up_ratio)%float))
         (seq 0 (S n)))
    (seq 1 10).

(** * Properties *)

(** ** The [result] monad *)

Lemma bind_Ok {A B : Type} (c : result A) (k : A -> result B) (b : B) :
  bind c k = Ok b -> exists a, c = Ok a /\ k a = Ok b.
Proof.
  destruct c as [a|e]; simpl; intros H; [eauto | discriminate].
Qed.

Ltac inv_bind H :=
  let a := fresh "v" in
  let Ha := fresh "E" in
  apply bind_Ok in H; destruct H as (a & Ha & H).

Lemma Ok_inj {A : Type} (a b : A) : Ok a = Ok b -> a = b.
Proof. congruence. Qed.

Ltac inv_Ok H := first [apply Ok_inj in H | injection H as H]; try subst.

Lemma map_each_Ok_map {A B : Type} (f : A -> result B) (g : A -> B) (l : list A) :
  (forall x, In x l -> f x = Ok (g x)) -> map_each f l = Ok (map g l).
Proof.
  induction l as [|x l IH]; intros H; simpl; [reflexivity|].
  rewrite (H x (or_introl eq_refl)); simpl.
  rewrite IH by (intros y Hy; apply H; now right). reflexivity.
Qed.

Lemma map_each_length {A B : Type} (f : A -> result B) (l : list A) (l' : list B) :
  map_each f l = Ok l' -> List.length l' = List.length l.
Proof.
  revert l'. induction l as [|x l IH]; intros l' H; simpl in H.
  - inv_Ok H. reflexivity.
  - inv_bind H. inv_bind H. inv_Ok H. simpl. f_equal. now apply IH.
Qed.

Lemma map_each_nth {A B : Type} (f : A -> result B) (l : list A) (l' : list B) :
  map_each f l = Ok l' ->
  forall i a, nth_error l i = Some a ->
  exists b, nth_error l' i = Some b /\ f a = Ok b.
Proof.
  revert l'. induction l as [|x l IH]; intros l' H i a Hi; simpl in H.
  - destruct i; discriminate.
  - inv_bind H. inv_bind H. inv_Ok H. destruct i as [|i]; simpl in *.
    + inv_Ok Hi. eauto.
    + eapply IH; eauto.
Qed.

(** ** Binary64 facts from the specification of the primitive operations *)

Lemma shr_1_nonneg (mrs : shr_record) : 0 <= shr_m mrs -> 0 <= shr_m (shr_1 mrs).
Proof.
  destruct mrs as [m r s]; simpl.
  destruct m as [|p|p]; simpl; intros H; try lia.
  destruct p; simpl; lia.
Qed.

Lemma iter_shr_1_nonneg (p : positive) :
  forall mrs, 0 <= shr_m mrs -> 0 <= shr_m (iter_pos shr_1 p mrs).
Proof.
  induction p as [p IH|p IH|]; intros mrs H; simpl.
  - apply IH, IH, shr_1_nonneg, H.
  - apply IH, IH, H.
  - apply shr_1_nonneg, H.
Qed.

Lemma shr_nonneg (mrs : shr_record) (e n : Z) :
  0 <= shr_m mrs -> 0 <= shr_m (fst (shr mrs e n)).
Proof.
  intros H. unfold shr. destruct n; simpl; auto using iter_shr_1_nonneg.
Qed.

Lemma shr_record_of_loc_m (m : Z) (l : location) :
  shr_m (shr_record_of_loc m l) = m.
Proof. destruct l as [|[]]; reflexivity. Qed.

Lemma shr_fexp_nonneg (m e : Z) (l : location) :
  0 <= m -> 0 <= shr_m (fst (shr_fexp prec emax m e l)).
Proof.
  intros H. unfold shr_fexp. apply shr_nonneg. now rewrite shr_record_of_loc_m.
Qed.

Lemma round_nearest_even_nonneg (m : Z) (l : location) :
  0 <= m -> 0 <= round_nearest_even m l.
Proof.
  intros H. destruct l as [|[]]; simpl; try lia. destruct (Z.even m); lia.
Qed.

(** Rounding a non-negative mantissa never produces a NaN. *)
Lemma binary_round_aux_not_nan (sx : bool) (mx ex : Z) (lx : location) :
  0 <= mx -> binary_round_aux prec emax sx mx ex lx <> S754_nan.
Proof.
  intros H. unfold binary_round_aux.
  pose proof (shr_fexp_nonneg mx ex lx H) as H1.
  destruct (shr_fexp prec emax mx ex lx) as [mrs' e']. simpl in H1.
  pose proof (shr_fexp_nonneg _ e' loc_Exact
                (round_nearest_even_nonneg _ (loc_of_shr_record mrs') H1)) as H2.
  destruct (shr_fexp prec emax
              (round_nearest_even (shr_m mrs') (loc_of_shr_record mrs')) e' loc_Exact)
    as [mrs'' e''].
  simpl in H2.
  destruct (shr_m mrs'') as [|p|p]; try discriminate.
  - destruct (e'' <=? emax - prec); discriminate.
  - lia.
Qed.

Lemma SFdiv_core_nonneg (m1 m2 : positive) (e1 e2 : Z) :
  0 <= fst (fst (SFdiv_core_binary prec emax (Zpos m1) e1 (Zpos m2) e2)).
Proof.
  unfold SFdiv_core_binary.
  set (s := _ - _ - _).
  set (m' := match s with Z0 => _ | Zpos _ => _ | Zneg _ => _ end).
  assert (Hm : 0 <= m').
  { subst m'. destruct s; try lia. apply Z.shiftl_nonneg. lia. }
  pose proof (Z.div_pos m' (Zpos m2) Hm ltac:(lia)) as Hq.
  unfold Z.div in Hq.
  destruct (Z.div_eucl m' (Zpos m2)) as [q r]. exact Hq.
Qed.

(** A finite dividend over a finite non-zero divisor is not a NaN. *)
Lemma SFdiv_not_nan (x y : spec_float) :
  SF_is_finite x = true -> SF_is_finite y = true ->
  SFeqb y (S754_zero false) = false ->
  SFdiv prec emax x y <> S754_nan.
Proof.
  destruct x as [sx| | |sx mx ex]; try discriminate;
    destruct y as [sy| | |sy my ey]; try discriminate;
    intros _ _ Hz; simpl; try discriminate.
  pose proof (SFdiv_core_nonneg mx my ex ey) as H.
  destruct (SFdiv_core_binary prec emax (Zpos mx) ex (Zpos my) ey) as [[mz ez] lz].
  apply binary_round_aux_not_nan. exact H.
Qed.

Lemma is_finite_SF (x : float) :
  is_finite x = true -> SF_is_finite (Prim2SF x) = true.
Proof.
  unfold is_finite, is_nan, is_infinity.
  rewrite !eqb_spec, abs_spec.
  change (Prim2SF infinity) with (S754_infinity false).
  destruct (Prim2SF x) as [s|s| |s m e]; simpl; try reflexivity; try discriminate.
  destruct s; vm_compute; discriminate.
Qed.

Lemma div_not_nan (x y : float) :
  is_finite x = true -> is_finite y = true -> (y =? 0)%float = false ->
  Prim2SF (x / y) <> S754_nan.
Proof.
  intros Hx Hy Hz. rewrite div_spec. apply SFdiv_not_nan.
  - now apply is_finite_SF.
  - now apply is_finite_SF.
  - rewrite eqb_spec in Hz. exact Hz.
Qed.

(** The divisor may be infinite: the quotient is then a zero. *)
Lemma SFdiv_number (x y : spec_float) :
  SF_is_finite x = true -> y <> S754_nan ->
  SFeqb y (S754_zero false) = false ->
  SFdiv prec emax x y <> S754_nan.
Proof.
  intros Hx Hy Hz. destruct y as [sy|sy| |sy my ey].
  - now apply SFdiv_not_nan.
  - destruct x as [sx| | |sx mx ex]; try discriminate; simpl; discriminate.
  - contradiction.
  - now apply SFdiv_not_nan.
Qed.

Lemma div_number (x y : float) :
  is_finite x = true -> is_nan y = false -> (y =? 0)%float = false ->
  Prim2SF (x / y) <> S754_nan.
Proof.
  intros Hx Hy Hz. rewrite div_spec. apply SFdiv_number.
  - now apply is_finite_SF.
  - unfold is_nan in Hy. rewrite eqb_spec in Hy. intros E. rewrite E in Hy.
    discriminate.
  - rewrite eqb_spec in Hz. exact Hz.
Qed.

(** Comparisons: [SFcompare] is antisymmetric. *)
Lemma SFcompare_antisym (x y : spec_float) :
  SFcompare y x = option_map CompOpp (SFcompare x y).
Proof.
  destruct x as [sx|sx| |sx mx ex], y as [sy|sy| |sy my ey]; simpl;
    try reflexivity;
    try (destruct sx; reflexivity); try (destruct sy; reflexivity);
    try (destruct sx, sy; reflexivity).
  destruct sx, sy; simpl; try reflexivity;
    rewrite (Z.compare_antisym ex ey); destruct (ex ?= ey); simpl; try reflexivity;
    rewrite (Pos.compare_cont_antisym mx my Eq); simpl;
    destruct (Pos.compare_cont Eq mx my); reflexivity.
Qed.

Lemma ltb_asym (x y : float) : (x <? y)%float = true -> (y <? x)%float = false.
Proof.
  rewrite !ltb_spec. unfold SFltb.
  rewrite (SFcompare_antisym (Prim2SF x) (Prim2SF y)).
  destruct (SFcompare (Prim2SF x) (Prim2SF y)) as [[]|]; simpl; congruence.
Qed.

Lemma not_ltb_leb (x y : float) :
  Prim2SF x <> S754_nan -> Prim2SF y <> S754_nan ->
  (x <? y)%float = false -> (y <=? x)%float = true.
Proof.
  rewrite ltb_spec, leb_spec. unfold SFltb, SFleb.
  rewrite (SFcompare_antisym (Prim2SF x) (Prim2SF y)).
  intros Hx Hy.
  destruct (Prim2SF x) as [sx|sx| |sx mx ex], (Prim2SF y) as [sy|sy| |sy my ey];
    try congruence;
    match goal with
    | |- context [SFcompare ?a ?b] => destruct (SFcompare a b) as [[]|] eqn:E
    end; simpl; try congruence; simpl in E; discriminate.
Qed.

(** The order of the floats is the lexicographic order of their ranks. *)
Lemma SFleb_rank (x y : spec_float) :
  x <> S754_nan -> y <> S754_nan ->
  (SFleb x y = true <-> lex_le (SFrank x) (SFrank y)).
Proof.
  intros Hx Hy. unfold SFleb.
  destruct x as [sx|sx| |sx mx ex], y as [sy|sy| |sy my ey]; try congruence;
    cbn [SFcompare SFrank lex_le];
    try (destruct sx; cbn; intuition (try discriminate; try lia); fail);
    try (destruct sy; cbn; intuition (try discriminate; try lia); fail);
    try (destruct sx, sy; cbn; intuition (try discriminate; try lia); fail).
  destruct sx, sy; cbn [lex_le];
    try (intuition (try discriminate; try lia); fail);
    destruct (Z.compare_spec ex ey);
    try (intuition (try discriminate; try lia); fail);
    change (Pos.compare_cont Eq mx my) with (Zpos mx ?= Zpos my);
    destruct (Z.compare_spec (Zpos mx) (Zpos my)); cbn;
    intuition (try discriminate; try lia).
Qed.

Lemma lex_le_trans (p q r : Z * Z * Z) : lex_le p q -> lex_le q r -> lex_le p r.
Proof.
  destruct p as [[a1 b1] c1], q as [[a2 b2] c2], r as [[a3 b3] c3].
  unfold lex_le. lia.
Qed.

Lemma leb_not_nan (x y : float) :
  (x <=? y)%float = true -> Prim2SF x <> S754_nan /\ Prim2SF y <> S754_nan.
Proof.
  rewrite leb_spec. unfold SFleb.
  destruct (Prim2SF x), (Prim2SF y); simpl; try discriminate; split; discriminate.
Qed.

Lemma leb_trans (x y z : float) :
  (x <=? y)%float = true -> (y <=? z)%float = true -> (x <=? z)%float = true.
Proof.
  intros Hxy Hyz.
  destruct (leb_not_nan _ _ Hxy) as [Hx Hy].
  destruct (leb_not_nan _ _ Hyz) as [_ Hz].
  rewrite leb_spec in *.
  apply (SFleb_rank _ _ Hx Hz).
  eapply lex_le_trans; [apply (SFleb_rank _ _ Hx Hy)|apply (SFleb_rank _ _ Hy Hz)];
    assumption.
Qed.

Lemma is_nan_SF (x : float) : is_nan x = false -> Prim2SF x <> S754_nan.
Proof.
  unfold is_nan. rewrite eqb_spec. intros H E. rewrite E in H. discriminate.
Qed.

Lemma leb_refl (x : float) : is_nan x = false -> (x <=? x)%float = true.
Proof.
  intros H. apply is_nan_SF in H. rewrite leb_spec.
  apply (SFleb_rank _ _ H H).
  destruct (SFrank (Prim2SF x)) as [[a b] c]. unfold lex_le. lia.
Qed.

(** ** The historical average *)

Lemma py_get_wf_count (term : string) (s : pyval) :
  wf_snapshot s = true -> snapshot_count term s = Ok (PInt (mentions_in term s)).
Proof.
  unfold wf_snapshot, snapshot_count, mentions_in.
  destruct s as [| | | | | |d]; try discriminate. simpl.
  destruct (assoc_get d "mentions") as [[| | | | | |m]|]; try discriminate; simpl.
  - intros Hm. induction m as [|[k v] m IH]; simpl in *; [reflexivity|].
    apply andb_true_iff in Hm as [Hv Hm].
    destruct (String.eqb k term).
    + destruct v; try discriminate. reflexivity.
    + apply IH, Hm.
  - reflexivity.
Qed.

Lemma for_each_int_add (zs : list Z) (acc : Z) :
  for_each py_add (map PInt zs) (NInt acc)
  = Ok (NInt (acc + fold_right Z.add 0 zs)).
Proof.
  revert acc. induction zs as [|z zs IH]; intros acc; simpl.
  - do 2 f_equal. lia.
  - rewrite IH. do 2 f_equal. lia.
Qed.

Lemma py_int_truediv_finite (a b : Z) (q : float) :
  py_int_truediv a b = Ok q -> is_finite q = true.
Proof.
  unfold py_int_truediv. destruct (b =? 0); [discriminate|].
  destruct (is_finite (Z_truediv a b)) eqn:E; [|discriminate].
  intros H. inv_Ok H. exact E.
Qed.

(** On a well-formed history the counts are integers and so is their sum. *)
Lemma get_historical_avg_counts (h : list pyval) (term : string) :
  wf_history h = true ->
  map_each (snapshot_count term) h
  = Ok (map PInt (map (mentions_in term) h))
  /\ py_sum (map PInt (map (mentions_in term) h))
     = Ok (NInt (total_mentions term h)).
Proof.
  intros Hwf. split.
  - rewrite map_map. apply map_each_Ok_map. intros x Hx. apply py_get_wf_count.
    unfold wf_history in Hwf. rewrite forallb_forall in Hwf. now apply Hwf.
  - unfold py_sum. now rewrite for_each_int_add.
Qed.

(** On a well-formed history an average that is returned is finite; a
    history with a float count can have an infinite average, or a NaN. *)
Lemma get_historical_avg_finite (h : list pyval) (term : string) (avg : float) :
  wf_history h = true ->
  _get_historical_avg h term = Ok avg -> is_finite avg = true.
Proof.
  intros Hwf. unfold _get_historical_avg. destruct h as [|s h].
  - intros H. inv_Ok H. reflexivity.
  - destruct (get_historical_avg_counts (s :: h) term Hwf) as [-> Hsum].
    cbn [bind]. remember (s :: h) as l eqn:El.
    destruct (map PInt (map (mentions_in term) l)) as [|c cs] eqn:Ec.
    + intros H. inv_Ok H. reflexivity.
    + rewrite Hsum. cbn [bind py_truediv]. apply py_int_truediv_finite.
Qed.

Lemma is_finite_not_nan (x : float) : is_finite x = true -> is_nan x = false.
Proof.
  unfold is_finite. destruct (is_nan x); [discriminate|reflexivity].
Qed.



(** ** Velocity *)

(** The cap: whatever [x] is, a NaN included, [min(x, 10.0)] is not above
    10.0. *)
Lemma never_above_cap (x : float) : (10 <? py_min x 10)%float = false.
Proof.
  unfold py_min. destruct (10 <? x)%float eqn:E; [reflexivity|exact E].
Qed.

(** Unless the average is a NaN, a velocity that is returned is a number,
    and at most 10.0. *)
Lemma calculate_velocity_range (h : list pyval) (term : string) (c : Z)
  (avg v : float) :
  _get_historical_avg h term = Ok avg -> is_nan avg = false ->
  _calculate_velocity h term c = Ok v ->
  Prim2SF v <> S754_nan /\ (v <=? 10)%float = true.
Proof.
  unfold _calculate_velocity. intros Havg Hnan H. rewrite Havg in H.
  cbn [bind] in H. destruct (avg =? 0)%float eqn:Ez.
  - destruct (2 <=? c); inv_Ok H; split; (discriminate || reflexivity).
  - inv_bind H. inv_Ok H. unfold float_of_int in E.
    destruct (is_finite (Z2F c)) eqn:Ef; [|discriminate]. inv_Ok E.
    assert (Hq : Prim2SF (Z2F c / avg) <> S754_nan)
      by (apply div_number; assumption).
    unfold py_min. destruct (10 <? Z2F c / avg)%float eqn:El.
    + split; [discriminate|reflexivity].
    + split; [exact Hq|]. apply not_ltb_leb; [discriminate|exact Hq|exact El].
Qed.

Lemma calculate_velocity_range_wf (h : list pyval) (term : string) (c : Z)
  (v : float) :
  wf_history h = true ->
  _calculate_velocity h term c = Ok v ->
  Prim2SF v <> S754_nan /\ (v <=? 10)%float = true.
Proof.
  intros Hwf H.
  destruct (_get_historical_avg h term) as [avg|e] eqn:Havg;
    [|unfold _calculate_velocity in H; rewrite Havg in H; discriminate].
  apply (calculate_velocity_range h term c avg v Havg); [|exact H].
  apply is_finite_not_nan. exact (get_historical_avg_finite h term avg Hwf Havg).
Qed.

(** C1. [_calculate_velocity] returns exactly 2.0 for a term whose
    historical average is zero and whose count is at least 2, exactly 1.5
    when the average is zero and the count is below 2, and otherwise the
    count divided by the average, capped at 10.0.  No value it returns
    exceeds 10.0, whatever the history file held; and unless the average is
    a NaN, which a float count of the file can make it, what it returns is
    at most 10.0. *)
Theorem calculate_velocity_cases
  (h : list pyval) (term : string) (current_count : Z) (hist_avg : float) :
  _get_historical_avg h term = Ok hist_avg ->
  ((hist_avg =? 0)%float = true -> 2 <= current_count ->
   _calculate_velocity h term current_count = Ok 2%float)
  /\ ((hist_avg =? 0)%float = true -> current_count < 2 ->
      _calculate_velocity h term current_count = Ok 1.5%float)
  /\ ((hist_avg =? 0)%float = false ->
      forall count, float_of_int current_count = Ok count ->
      _calculate_velocity h term current_count
      = Ok (py_min (count / hist_avg) 10)%float)
  /\ (forall v, _calculate_velocity h term current_count = Ok v ->
      (10 <? v)%float = false)
  /\ (is_nan hist_avg = false ->
      forall v, _calculate_velocity h term current_count = Ok v ->
      (v <=? 10)%float = true).
Proof.
  intros Havg.
  assert (Hrange : is_nan hist_avg = false ->
            forall v, _calculate_velocity h term current_count = Ok v ->
            (v <=? 10)%float = true).
  { intros Hnan v Hv.
    exact (proj2 (calculate_velocity_range h term current_count hist_avg v
                    Havg Hnan Hv)). }
  unfold _calculate_velocity. rewrite Havg. cbn [bind].
  split; [|split; [|split; [|split]]].
  - intros -> Hc. apply Z.leb_le in Hc. now rewrite Hc.
  - intros -> Hc. apply Z.leb_gt in Hc. now rewrite Hc.
  - intros -> count ->. reflexivity.
  - intros v. destruct (hist_avg =? 0)%float.
    + destruct (2 <=? current_count); intros Hv; inv_Ok Hv; reflexivity.
    + destruct (float_of_int current_count) as [count|e]; [|discriminate].
      cbn [bind]. intros Hv. inv_Ok Hv. apply never_above_cap.
  - intros Hnan v Hv. apply (Hrange Hnan v).
    unfold _calculate_velocity. rewrite Havg. exact Hv.
Qed.

Lemma calculate_velocity_cases_witness :
  _get_historical_avg [] "GPT" = Ok 0%float
  /\ _calculate_velocity [] "GPT" 3 = Ok 2%float
  /\ _calculate_velocity [] "GPT" 1 = Ok 1.5%float
  /\ _get_historical_avg sample_history "GPT" = Ok 2%float
  /\ _calculate_velocity sample_history "GPT" 3 = Ok (py_min (Z2F 3 / 2) 10)%float
  /\ (10 <? py_min (Z2F 3 / 2) 10)%float = false
  /\ (py_min (Z2F 3 / 2) 10 <=? 10)%float = true.
Proof.
  destruct (calculate_velocity_cases [] "GPT" 3 0%float eq_refl) as (H2 & _).
  destruct (calculate_velocity_cases [] "GPT" 1 0%float eq_refl) as (_ & H1 & _).
  destruct (calculate_velocity_cases sample_history "GPT" 3 2%float eq_refl)
    as (_ & _ & H3 & H4 & H5).
  split; [reflexivity|].
  split; [apply H2; [reflexivity|lia]|].
  split; [apply H1; [reflexivity|lia]|].
  split; [reflexivity|].
  split; [apply H3; reflexivity|].
  split; [apply H4, H3; reflexivity|].
  apply (H5 eq_refl), H3; reflexivity.
Defined.

(** ** Dictionaries *)

Lemma assoc_get_dict_set {V : Type} (d : list (string * V)) (k k' : string) (v : V) :
  assoc_get (dict_set d k v) k' = if String.eqb k k' then Some v else assoc_get d k'.
Proof.
  induction d as [|[k0 w] d IH]; simpl.
  - reflexivity.
  - destruct (String.eqb k0 k) eqn:E0; simpl.
    + apply String.eqb_eq in E0. subst k0.
      destruct (String.eqb k k'); reflexivity.
    + destruct (String.eqb k0 k') eqn:E1.
      * apply String.eqb_eq in E1. subst k0. now rewrite String.eqb_sym, E0.
      * exact IH.
Qed.

Lemma assoc_get_In {V : Type} (d : list (string * V)) (k : string) (v : V) :
  assoc_get d k = Some v -> In (k, v) d.
Proof.
  induction d as [|[k0 w] d IH]; simpl; [discriminate|].
  destruct (String.eqb k0 k) eqn:E.
  - apply String.eqb_eq in E. intros H. inv_Ok H. now left.
  - intros H. right. now apply IH.
Qed.

Lemma In_assoc_get {V : Type} (d : list (string * V)) (k : string) (v : V) :
  NoDup (map fst d) -> In (k, v) d -> assoc_get d k = Some v.
Proof.
  induction d as [|[k0 w] d IH]; simpl; intros Hnd Hin; [contradiction|].
  inversion Hnd as [|? ? Hnotin Hnd']; subst.
  destruct Hin as [Heq|Hin].
  - inv_Ok Heq. now rewrite String.eqb_refl.
  - destruct (String.eqb k0 k) eqn:E.
    + apply String.eqb_eq in E. subst k0. exfalso. apply Hnotin.
      change k with (fst (k, v)). now apply in_map.
    + now apply IH.
Qed.

Lemma dict_set_values {V : Type} (P : V -> Prop) (d : list (string * V))
  (k : string) (v : V) :
  P v -> (forall kv, In kv d -> P (snd kv)) ->
  forall kv, In kv (dict_set d k v) -> P (snd kv).
Proof.
  intros Hv. induction d as [|[k0 w] d IH]; simpl; intros Hd kv Hin.
  - destruct Hin as [<-|[]]. exact Hv.
  - destruct (String.eqb k0 k).
    + destruct Hin as [<-|Hin]; [exact Hv|]. apply Hd. now right.
    + destruct Hin as [<-|Hin].
      * apply (Hd (k0, w)). now left.
      * apply IH; [|exact Hin]. intros kv' H'. apply Hd. now right.
Qed.

(** ** The descending sort *)

Section SortingFacts.
Context {A K : Type}.
Variable lt : K -> K -> bool.
Variable key : A -> K.

Lemma insert_desc_perm (x : A) (l : list A) :
  Permutation (insert_desc lt key x l) (x :: l).
Proof.
  induction l as [|y l IH]; simpl; [reflexivity|].
  destruct (lt (key x) (key y)); [|reflexivity].
  rewrite IH. apply perm_swap.
Qed.

Lemma sorted_desc_perm (l : list A) : Permutation (sorted_desc lt key l) l.
Proof.
  induction l as [|x l IH]; simpl; [reflexivity|].
  rewrite insert_desc_perm. now constructor.
Qed.

Lemma sorted_desc_length (l : list A) :
  List.length (sorted_desc lt key l) = List.length l.
Proof. apply Permutation_length, sorted_desc_perm. Qed.

Lemma sorted_desc_In (x : A) (l : list A) : In x (sorted_desc lt key l) <-> In x l.
Proof.
  split; apply Permutation_in; [|symmetry]; apply sorted_desc_perm.
Qed.

Hypothesis lt_asym : forall a b, lt a b = true -> lt b a = false.

Lemma insert_desc_sorted (x : A) (l : list A) :
  Sorted (not_below lt key) l -> Sorted (not_below lt key) (insert_desc lt key x l).
Proof.
  induction l as [|y l IH]; simpl; intros Hs.
  - repeat constructor.
  - destruct (lt (key x) (key y)) eqn:E.
    + inversion Hs as [|? ? Hs' Hhd]; subst. constructor; [now apply IH|].
      destruct l as [|z l]; simpl.
      * constructor. now apply lt_asym.
      * destruct (lt (key x) (key z)).
        -- inversion Hhd; subst. now constructor.
        -- constructor. now apply lt_asym.
    + constructor; [exact Hs|]. constructor. exact E.
Qed.

Lemma sorted_desc_sorted (l : list A) : Sorted (not_below lt key) (sorted_desc lt key l).
Proof.
  induction l as [|x l IH]; simpl; [constructor|]. now apply insert_desc_sorted.
Qed.

End SortingFacts.


Section RankedFacts.
Context {A : Type}.
Variable key : A -> float.



End RankedFacts.

Lemma firstn_In {A : Type} (n : nat) (l : list A) (x : A) :
  In x (firstn n l) -> In x l.
Proof.
  intros H. rewrite <- (firstn_skipn n l). apply in_or_app. now left.
Qed.

Lemma NoDup_firstn {A : Type} (n : nat) (l : list A) : NoDup l -> NoDup (firstn n l).
Proof.
  intros H. rewrite <- (firstn_skipn n l) in H. now apply NoDup_app_remove_r in H.
Qed.

Lemma most_common_In (n : nat) (cm : list (string * Z)) (item : string * Z) :
  In item (most_common n cm) -> In item cm.
Proof.
  unfold most_common. intros H. apply firstn_In in H. now apply sorted_desc_In in H.
Qed.

Lemma most_common_NoDup (n : nat) (cm : list (string * Z)) :
  NoDup (map fst cm) -> NoDup (map fst (most_common n cm)).
Proof.
  intros H. unfold most_common. rewrite <- firstn_map. apply NoDup_firstn.
  eapply Permutation_NoDup; [|exact H].
  apply Permutation_map. symmetry. apply sorted_desc_perm.
Qed.

Lemma Z_ltb_asym (a b : Z) : (a <? b) = true -> (b <? a) = false.
Proof. intros H. apply Z.ltb_lt in H. apply Z.ltb_ge. lia. Qed.

Lemma sorted_by_count (cm : list (string * Z)) :
  StronglySorted (fun a b => snd b <= snd a) (sorted_desc Z.ltb snd cm).
Proof.
  apply Sorted_StronglySorted; [intros a b c; lia|].
  pose proof (sorted_desc_sorted Z.ltb snd Z_ltb_asym cm) as H.
  induction H as [|a l Hs IH Hhd]; constructor; [exact IH|].
  destruct Hhd as [|b l Hab]; constructor.
  unfold not_below in Hab. apply Z.ltb_ge in Hab. exact Hab.
Qed.

Lemma strongly_sorted_app {A : Type} (R : A -> A -> Prop) (l1 l2 : list A) :
  StronglySorted R (l1 ++ l2) ->
  forall x y, In x l1 -> In y l2 -> R x y.
Proof.
  induction l1 as [|a l1 IH]; simpl; intros H x y Hx Hy; [contradiction|].
  inversion H as [|? ? Hs Hall]; subst. destruct Hx as [<-|Hx].
  - rewrite Forall_forall in Hall. apply Hall, in_or_app. now right.
  - now apply IH.
Qed.

(** The terms [most_common] keeps are mentioned at least as often as the
    ones it leaves out. *)
Lemma most_common_dominates (n : nat) (cm : list (string * Z))
  (kept dropped : string * Z) :
  In kept (most_common n cm) -> In dropped cm ->
  ~ In dropped (most_common n cm) ->
  snd dropped <= snd kept.
Proof.
  unfold most_common. intros Hk Hd Hnot.
  pose proof (sorted_by_count cm) as Hs.
  rewrite <- (firstn_skipn n (sorted_desc Z.ltb snd cm)) in Hs.
  apply (strongly_sorted_app _ _ _ Hs); [exact Hk|].
  apply (sorted_desc_In Z.ltb snd) in Hd.
  rewrite <- (firstn_skipn n (sorted_desc Z.ltb snd cm)) in Hd.
  apply in_app_or in Hd as [Hd|Hd]; [contradiction|exact Hd].
Qed.

Lemma assoc_get_None_not_In {V : Type} (d : list (string * V)) (k : string) (v : V) :
  assoc_get d k = None -> ~ In (k, v) d.
Proof.
  induction d as [|[k0 w] d IH]; simpl; intros H; [tauto|].
  destruct (String.eqb k0 k) eqn:E; [discriminate|].
  intros [Heq|Hin]; [|now apply IH].
  injection Heq as -> _. now rewrite String.eqb_refl in E.
Qed.

(** ** Loading and saving the history *)

(** C3. A history file holding the JSON document [[1]], a list whose
    element is not a snapshot object, makes [_load_history] raise: the
    [AttributeError] of the element's missing [get] is not among the
    exceptions the method catches, no warning is logged and no empty history
    is returned. *)
Theorem load_history_attribute_error_escapes (cutoff : string) :
  _load_history cutoff (Json (PList [PInt 1])) = (Raise AttributeError, []).
Proof. reflexivity. Qed.

(** What the handler does recover: text that is not JSON and documents
    that cannot be iterated over. *)
Lemma load_history_recovers_not_json (cutoff : string) :
  _load_history cutoff NotJson = (Ok [], [corrupted_warning]).
Proof. reflexivity. Qed.

Lemma load_history_recovers_scalar (cutoff : string) (z : Z) :
  _load_history cutoff (Json (PInt z)) = (Ok [], [corrupted_warning]).
Proof. reflexivity. Qed.

Lemma load_history_unreadable_escapes (cutoff : string) :
  _load_history cutoff Unreadable = (Raise OSError, [])
  /\ _load_history cutoff NotUtf8 = (Raise UnicodeDecodeError, []).
Proof. split; reflexivity. Qed.

Lemma prune_app (cutoff : string) (l1 l2 kept : list pyval) :
  prune cutoff (l1 ++ l2) = Ok kept ->
  exists k1 k2,
    prune cutoff l1 = Ok k1 /\ prune cutoff l2 = Ok k2 /\ kept = (k1 ++ k2)%list.
Proof.
  revert kept. induction l1 as [|s l1 IH]; intros kept H; simpl in *.
  - exists [], kept. auto.
  - inv_bind H. inv_bind H. inv_bind H. inv_Ok H.
    destruct (IH _ E1) as (k1 & k2 & H1 & H2 & ->).
    rewrite E. cbn [bind]. rewrite E0. cbn [bind]. rewrite H1. cbn [bind].
    exists (if v0 then s :: k1 else k1), k2. destruct v0; auto.
Qed.

Lemma prune_app_Ok (cutoff : string) (l1 l2 k1 k2 : list pyval) :
  prune cutoff l1 = Ok k1 -> prune cutoff l2 = Ok k2 ->
  prune cutoff (l1 ++ l2) = Ok (k1 ++ k2)%list.
Proof.
  revert k1. induction l1 as [|s l1 IH]; intros k1 H1 H2; simpl in *.
  - inv_Ok H1. exact H2.
  - inv_bind H1. inv_bind H1. inv_bind H1. inv_Ok H1.
    rewrite E. cbn [bind]. rewrite E0. cbn [bind].
    rewrite (IH _ E1 H2). cbn [bind]. destruct v0; reflexivity.
Qed.

(** Pruning what a pruning kept never raises, whatever the new cutoff. *)
Lemma prune_again (c c' : string) (l kept : list pyval) :
  prune c l = Ok kept -> exists kept', prune c' kept = Ok kept'.
Proof.
  revert kept. induction l as [|s l IH]; intros kept H; simpl in H.
  - inv_Ok H. exists []. reflexivity.
  - inv_bind H. inv_bind H. inv_bind H. inv_Ok H.
    destruct (IH _ E1) as (k' & Hk'). destruct v0; [|eauto].
    simpl. rewrite E. cbn [bind].
    unfold py_ge_str in *. destruct v; try discriminate. cbn [bind].
    rewrite Hk'. cbn [bind]. eauto.
Qed.

Lemma prune_snapshot (cutoff timestamp : string) (cm : list (string * Z)) :
  String.leb cutoff timestamp = true ->
  prune cutoff [snapshot_of timestamp cm] = Ok [snapshot_of timestamp cm].
Proof. intros H. simpl. now rewrite H. Qed.

Lemma assoc_get_map_PInt (mc : list (string * Z)) (t : string) :
  assoc_get (map (fun tc => (fst tc, PInt (snd tc))) mc) t
  = option_map PInt (assoc_get mc t).
Proof.
  induction mc as [|[k c] mc IH]; simpl; [reflexivity|].
  destruct (String.eqb k t); [reflexivity|exact IH].
Qed.

Lemma count_of_In (cm : list (string * Z)) (t : string) (c : Z) :
  NoDup (map fst cm) -> In (t, c) cm -> count_of cm t = c.
Proof.
  intros Hnd Hin. unfold count_of. now rewrite (In_assoc_get cm t c Hnd Hin).
Qed.

(** What [most_common] keeps is a top [n] by count. *)
Lemma most_common_top (n : nat) (cm : list (string * Z)) :
  NoDup (map fst cm) -> top_by_count n cm (map fst (most_common n cm)).
Proof.
  intros Hnd. split; [now apply most_common_NoDup|]. split; [|split].
  - rewrite length_map. unfold most_common.
    now rewrite length_firstn, sorted_desc_length.
  - intros t Ht. apply in_map_iff in Ht as (item & <- & Hin).
    apply in_map. eapply most_common_In, Hin.
  - intros t t' Ht Ht' Hout.
    apply in_map_iff in Ht as ([t0 c] & Heq & Hin). simpl in Heq. subst t0.
    apply in_map_iff in Ht' as ([t0 c'] & Heq & Hin'). simpl in Heq. subst t0.
    rewrite (count_of_In _ _ _ Hnd (most_common_In _ _ _ Hin)).
    rewrite (count_of_In _ _ _ Hnd Hin').
    apply (most_common_dominates n cm (t, c) (t', c') Hin Hin').
    intros Hkept. apply Hout. change t' with (fst (t', c')). now apply in_map.
Qed.

(** C6. After a successful [save_history] whose snapshot is inside the
    window, loading the file written (with the snapshot still inside the
    window) returns a history whose newest snapshot is the one saved.  The
    terms this snapshot maps are a top 200 by count of the saved state: 200
    terms of the state, or all of them when there are fewer, none mentioned
    less often than a term left out; and each of them is mapped to the count
    it has in the saved state. *)
Theorem save_then_load_round_trip
  (st st' : TrendScorer) (timestamp cutoff_save cutoff_load : string)
  (f : history_file) :
  NoDup (map fst (current_mentions st)) ->
  String.leb cutoff_save timestamp = true ->
  String.leb cutoff_load timestamp = true ->
  save_history timestamp cutoff_save st = Ok (st', f) ->
  exists older newest mentions,
    _load_history cutoff_load f = (Ok (older ++ [newest])%list, [])
    /\ py_get newest "mentions" (PDict []) = Ok (PDict mentions)
    /\ top_by_count 200 (current_mentions st) (map fst mentions)
    /\ (forall term,
          In term (map fst mentions) ->
          assoc_get mentions term
          = Some (PInt (count_of (current_mentions st) term)))
    /\ (forall term,
          In term (map fst (most_common 200 (current_mentions st))) ->
          assoc_get mentions term
          = Some (PInt (count_of (current_mentions st) term))).
Proof.
  intros Hnd Hsave Hload H. unfold save_history in H. inv_bind H.
  injection H as <- <-.
  destruct (prune_app _ _ _ _ E) as (k1 & k2 & H1 & H2 & ->).
  rewrite (prune_snapshot _ _ _ Hsave) in H2. inv_Ok H2.
  destruct (prune_again cutoff_save cutoff_load _ _ H1) as (older & Holder).
  assert (Hkeys : map fst (map (fun tc : string * Z => (fst tc, PInt (snd tc)))
                             (most_common 200 (current_mentions st)))
                  = map fst (most_common 200 (current_mentions st)))
    by (rewrite map_map; reflexivity).
  assert (Hcounts : forall term,
            In term (map fst (most_common 200 (current_mentions st))) ->
            assoc_get (map (fun tc : string * Z => (fst tc, PInt (snd tc)))
                           (most_common 200 (current_mentions st))) term
            = Some (PInt (count_of (current_mentions st) term))).
  { intros term Hin. rewrite assoc_get_map_PInt.
    apply in_map_iff in Hin as ([t c] & <- & Hin). simpl.
    rewrite (In_assoc_get _ t c (most_common_NoDup 200 _ Hnd) Hin). simpl.
    now rewrite (count_of_In _ t c Hnd (most_common_In _ _ _ Hin)). }
  exists older, (snapshot_of timestamp (current_mentions st)).
  eexists. split; [|split; [reflexivity|]].
  - unfold _load_history. cbn [file_exists read_json bind py_iter].
    now rewrite (prune_app_Ok _ _ _ _ _ Holder (prune_snapshot _ _ _ Hload)).
  - split; [rewrite Hkeys; now apply most_common_top|].
    split; [rewrite Hkeys|]; exact Hcounts.
Qed.

Lemma save_then_load_round_trip_witness :
  String.leb save_cutoff save_time = true
  /\ String.leb load_cutoff save_time = true
  /\ exists older newest mentions,
       _load_history load_cutoff
         (Json (PList [ PDict [ ("timestamp", PStr "2024-05-02T09:00:00.000000+00:00");
                                ("mentions", PDict [("GPT", PInt 2)]) ];
                        snapshot_of save_time (current_mentions sample_scorer) ]))
       = (Ok (older ++ [newest])%list, [])
       /\ py_get newest "mentions" (PDict []) = Ok (PDict mentions)
       /\ top_by_count 200 (current_mentions sample_scorer) (map fst mentions)
       /\ (forall term,
             In term (map fst mentions) ->
             assoc_get mentions term
             = Some (PInt (count_of (current_mentions sample_scorer) term)))
       /\ (forall term,
             In term (map fst (most_common 200 (current_mentions sample_scorer))) ->
             assoc_get mentions term
             = Some (PInt (count_of (current_mentions sample_scorer) term))).
Proof.
  split; [reflexivity|]. split; [reflexivity|].
  apply (save_then_load_round_trip sample_scorer
           {| history :=
                [ PDict [ ("timestamp", PStr "2024-05-02T09:00:00.000000+00:00");
                          ("mentions", PDict [("GPT", PInt 2)]) ];
                  snapshot_of save_time (current_mentions sample_scorer) ];
              current_mentions := current_mentions sample_scorer;
              current_sources := current_sources sample_scorer |}
           save_time save_cutoff load_cutoff).
  - vm_compute. repeat constructor; simpl; intuition discriminate.
  - reflexivity.
  - reflexivity.
  - vm_compute. reflexivity.
Defined.

(** After a load that returned, [save_history] returns. *)
Lemma save_history_returns (cutoff0 timestamp cutoff : string) (f0 : history_file)
  (h : list pyval) (log : list string) (st : TrendScorer) :
  _load_history cutoff0 f0 = (Ok h, log) ->
  history st = h ->
  exists st' f, save_history timestamp cutoff st = Ok (st', f).
Proof.
  intros Hload Hh.
  assert (Hkept : exists kept, prune cutoff h = Ok kept).
  { unfold _load_history in Hload. destruct (file_exists f0).
    - destruct (data <- read_json f0 ;; items <- py_iter data ;; prune cutoff0 items)
        as [recent|e] eqn:E.
      + injection Hload as <- _. inv_bind E. inv_bind E. eapply prune_again, E.
      + destruct e; try discriminate; injection Hload as <- _; exists []; reflexivity.
    - injection Hload as <- _. exists []. reflexivity. }
  destruct Hkept as (kept & Hkept).
  unfold save_history. rewrite Hh.
  assert (Hsnap : exists k, prune cutoff [snapshot_of timestamp (current_mentions st)] = Ok k).
  { simpl. eexists. reflexivity. }
  destruct Hsnap as (k & Hsnap).
  rewrite (prune_app_Ok _ _ _ _ _ Hkept Hsnap). cbn [bind]. eauto.
Qed.


(** ** Rounding to two decimals between 1.0 and 10.0 *)

Lemma digits2_pos_bounds (m : positive) :
  2 ^ (Zpos (digits2_pos m) - 1) <= Zpos m < 2 ^ Zpos (digits2_pos m).
Proof.
  induction m as [m IH|m IH|]; cbn [digits2_pos].
  - rewrite Pos2Z.inj_succ.
    replace (Z.succ (Zpos (digits2_pos m)) - 1) with (Z.succ (Zpos (digits2_pos m) - 1)) by lia.
    rewrite !Z.pow_succ_r by lia. lia.
  - rewrite Pos2Z.inj_succ.
    replace (Z.succ (Zpos (digits2_pos m)) - 1) with (Z.succ (Zpos (digits2_pos m) - 1)) by lia.
    rewrite !Z.pow_succ_r by lia. lia.
  - simpl. lia.
Qed.


Lemma round_half_even_exact (n d : Z) :
  0 < d -> n mod d = 0 -> round_half_even n d = n / d.
Proof.
  intros Hd Hr. unfold round_half_even. rewrite Hr.
  destruct (2 * 0 ?= d) eqn:E; try reflexivity.
  - apply Z.compare_eq in E. lia.
  - apply Z.compare_gt_iff in E. lia.
Qed.



Lemma SFcompare_pos_pos (m1 m2 : positive) (e1 e2 : Z) :
  SFcompare (S754_finite false m1 e1) (S754_finite false m2 e2)
  = Some (match e1 ?= e2 with
          | Lt => Lt
          | Gt => Gt
          | Eq => (Zpos m1 ?= Zpos m2)
          end).
Proof. reflexivity. Qed.

Lemma SFcompare_neg_pos (m1 m2 : positive) (e1 e2 : Z) :
  SFcompare (S754_finite true m1 e1) (S754_finite false m2 e2) = Some Lt.
Proof. reflexivity. Qed.

Lemma in_unit_range (v : float) :
  Prim2SF v <> S754_nan -> (v <? 1)%float = false -> (v <=? 10)%float = true ->
  exists m e, Prim2SF v = S754_finite false m e
    /\ (-52 <= e <= -49)
    /\ 4503599627370496 <= Zpos m < 9007199254740992
    /\ (e = -49 -> Zpos m <= 5629499534213120).
Proof.
  intros Hnan Hlt Hle. rewrite ltb_spec in Hlt. rewrite leb_spec in Hle.
  pose proof (Prim2SF_valid v) as Hv.
  change (Prim2SF 1) with (S754_finite false 4503599627370496 (-52)) in Hlt.
  change (Prim2SF 10) with (S754_finite false 5629499534213120 (-49)) in Hle.
  destruct (Prim2SF v) as [s|s| |s m e]; try congruence.
  - destruct s; discriminate.
  - destruct s; discriminate.
  - unfold SFltb, SFleb in *. destruct s.
    { rewrite SFcompare_neg_pos in Hlt. discriminate. }
    rewrite SFcompare_pos_pos in Hlt, Hle.
    exists m, e. split; [reflexivity|].
    unfold valid_binary, bounded, canonical_mantissa, fexp, SpecFloat.emin in Hv.
    apply andb_true_iff in Hv as [Hc _]. apply Z.eqb_eq in Hc.
    pose proof (digits2_pos_bounds m) as Hd.
    change prec with 53 in Hc. change emax with 1024 in Hc.
    assert (He : -52 <= e <= -49).
    { destruct (Z.compare_spec e (-52)); try discriminate;
      destruct (Z.compare_spec e (-49)); try discriminate; lia. }
    assert (Hdig : Zpos (digits2_pos m) = 53) by lia.
    rewrite Hdig in Hd.
    change (2 ^ (53 - 1)) with 4503599627370496 in Hd.
    change (2 ^ 53) with 9007199254740992 in Hd.
    repeat split; try lia.
    intros ->. rewrite Z.compare_refl in Hle.
    destruct (Z.compare_spec (Zpos m) 5629499534213120); try discriminate; lia.
Qed.



Lemma above_one_above_point_eight (v : float) :
  Prim2SF v <> S754_nan -> (v <? 1)%float = false -> (v <=? 10)%float = true ->
  (0.8 <? v)%float = true.
Proof.
  intros Hnan Hlt Hle.
  destruct (in_unit_range v Hnan Hlt Hle) as (m & e & Hv & He & _).
  rewrite ltb_spec, Hv.
  change (Prim2SF 0.8) with (S754_finite false 7205759403792794 (-53)).
  unfold SFltb. rewrite SFcompare_pos_pos.
  destruct (Z.compare_spec (-53) e); try lia; reflexivity.
Qed.

(** ** Counting mentions (phase 1) *)

Lemma count_of_incr (cm : list (string * Z)) (t t' : string) :
  count_of (counter_incr cm t) t'
  = count_of cm t' + (if String.eqb t t' then 1 else 0).
Proof.
  unfold count_of. induction cm as [|[k n] cm IH]; simpl.
  - destruct (String.eqb t t'); reflexivity.
  - destruct (String.eqb k t) eqn:E; simpl.
    + apply String.eqb_eq in E. subst k.
      destruct (String.eqb t t'); [reflexivity|lia].
    + destruct (String.eqb k t') eqn:E'.
      * apply String.eqb_eq in E'. subst k.
        rewrite String.eqb_sym, E. lia.
      * exact IH.
Qed.

Lemma counter_incr_keys (cm : list (string * Z)) (t k : string) :
  In k (map fst (counter_incr cm t)) <-> k = t \/ In k (map fst cm).
Proof.
  induction cm as [|[k0 n] cm IH]; simpl.
  - intuition.
  - destruct (String.eqb k0 t) eqn:E; simpl.
    + apply String.eqb_eq in E. subst k0. intuition.
    + rewrite IH. intuition.
Qed.

Lemma counter_incr_NoDup (cm : list (string * Z)) (t : string) :
  NoDup (map fst cm) -> NoDup (map fst (counter_incr cm t)).
Proof.
  induction cm as [|[k0 n] cm IH]; simpl; intros H.
  - repeat constructor. intros [].
  - inversion H as [|? ? Hnotin Hnd]; subst.
    destruct (String.eqb k0 t) eqn:E; simpl.
    + now constructor.
    + constructor; [|now apply IH].
      rewrite counter_incr_keys. intros [->|Hin]; [|contradiction].
      now rewrite String.eqb_refl in E.
Qed.

Lemma fold_incr_count (terms : list string) (cm : list (string * Z)) (t : string) :
  count_of (fold_left counter_incr terms cm) t
  = count_of cm t + Z.of_nat (count_occ string_dec terms t).
Proof.
  revert cm. induction terms as [|u terms IH]; intros cm; simpl; [lia|].
  rewrite IH, count_of_incr.
  destruct (string_dec u t) as [->|Hne].
  - rewrite String.eqb_refl. lia.
  - apply String.eqb_neq in Hne. rewrite Hne. lia.
Qed.

Lemma fold_incr_NoDup (terms : list string) (cm : list (string * Z)) :
  NoDup (map fst cm) -> NoDup (map fst (fold_left counter_incr terms cm)).
Proof.
  revert cm. induction terms as [|u terms IH]; intros cm H; simpl; [exact H|].
  now apply IH, counter_incr_NoDup.
Qed.

Lemma count_article_mentions (st : TrendScorer) (a : article) :
  current_mentions (count_article st a)
  = fold_left counter_incr (_extract_terms (text_of a)) (current_mentions st)
  /\ history (count_article st a) = history st.
Proof.
  unfold count_article. generalize (_extract_terms (text_of a)) as terms.
  intros terms. revert st. induction terms as [|u terms IH]; intros st; simpl.
  - auto.
  - destruct (IH (count_term (source_of a) st u)) as [-> ->]. auto.
Qed.

Lemma count_mentions_mentions (st : TrendScorer) (articles : list article) :
  current_mentions (count_mentions st articles)
  = fold_left counter_incr (batch_terms articles) (current_mentions st)
  /\ history (count_mentions st articles) = history st.
Proof.
  unfold count_mentions, batch_terms. revert st.
  induction articles as [|a articles IH]; intros st; simpl; [auto|].
  destruct (IH (count_article st a)) as [-> ->].
  destruct (count_article_mentions st a) as [-> ->].
  now rewrite fold_left_app.
Qed.

Lemma count_mentions_NoDup (st : TrendScorer) (articles : list article) :
  NoDup (map fst (current_mentions st)) ->
  NoDup (map fst (current_mentions (count_mentions st articles))).
Proof.
  intros H. destruct (count_mentions_mentions st articles) as [-> _].
  now apply fold_incr_NoDup.
Qed.

Lemma count_mentions_fresh (h : list pyval) (articles : list article) (t : string) :
  count_of (current_mentions (count_mentions (fresh_scorer h) articles)) t
  = Z.of_nat (count_occ string_dec (batch_terms articles) t).
Proof.
  destruct (count_mentions_mentions (fresh_scorer h) articles) as [-> _].
  now rewrite fold_incr_count.
Qed.

(** ** Term scores (phase 2) *)

Lemma score_terms_untouched (st : TrendScorer) (items : list (string * Z))
  (acc ts : list (string * float)) (t : string) :
  for_each (score_term st) items acc = Ok ts ->
  (forall c, In (t, c) items -> c < 2) ->
  assoc_get ts t = assoc_get acc t.
Proof.
  revert acc. induction items as [|[u c] items IH]; intros acc H Hlow; simpl in H.
  - now inv_Ok H.
  - inv_bind H. rewrite (IH _ H) by (intros c' Hc'; apply Hlow; now right).
    unfold score_term in E. destruct (c <? 2) eqn:Ec.
    + now inv_Ok E.
    + inv_bind E. inv_Ok E. rewrite assoc_get_dict_set.
      destruct (String.eqb u t) eqn:Eu; [|reflexivity].
      apply String.eqb_eq in Eu. subst u. apply Z.ltb_ge in Ec.
      specialize (Hlow c (or_introl eq_refl)). lia.
Qed.

Lemma score_terms_entry (st : TrendScorer) (items : list (string * Z))
  (acc ts : list (string * float)) (t : string) (c : Z) :
  NoDup (map fst items) ->
  for_each (score_term st) items acc = Ok ts ->
  In (t, c) items -> 2 <= c ->
  exists velocity,
    _calculate_velocity (history st) t c = Ok velocity
    /\ assoc_get ts t
       = Some (velocity
               * cross_source_bonus
                   (List.length (sources_of (current_sources st) t)))%float.
Proof.
  revert acc. induction items as [|[u c'] items IH]; intros acc Hnd H Hin Hc;
    simpl in *; [contradiction|].
  inversion Hnd as [|? ? Hnotin Hnd']; subst. inv_bind H.
  destruct Hin as [Heq|Hin].
  - inv_Ok Heq. unfold score_term in E.
    apply Z.ltb_ge in Hc. rewrite Hc in E. inv_bind E. inv_Ok E.
    exists v0. split; [assumption|].
    rewrite (score_terms_untouched st items _ ts t H).
    + rewrite assoc_get_dict_set, String.eqb_refl. reflexivity.
    + intros c0 Hc0. exfalso. apply Hnotin.
      change t with (fst (t, c0)). now apply in_map.
  - eapply IH; eauto.
Qed.

(** ** Trending topics *)

Lemma topic_of_from (st : TrendScorer) (items : list (string * Z))
  (acc td : list (string * topic)) :
  for_each (topic_of st) items acc = Ok td ->
  (forall item, In item items -> In item (current_mentions st)) ->
  (forall kv, In kv acc -> exists v a, topic_from st (snd kv) v a) ->
  forall kv, In kv td -> exists v a, topic_from st (snd kv) v a.
Proof.
  revert acc. induction items as [|[t c] items IH]; intros acc H Hitems Hacc;
    simpl in H.
  - now inv_Ok H.
  - inv_bind H. apply (IH _ H); [intros; apply Hitems; now right|].
    unfold topic_of in E. destruct (c <? 2) eqn:Ec; [now inv_Ok E|].
    inv_bind E. destruct (v0 <? 1)%float eqn:Ev; [now inv_Ok E|].
    inv_bind E. inv_Ok E.
    apply (dict_set_values (fun r => exists v a, topic_from st r v a));
      [|exact Hacc].
    exists v0, v1. constructor; simpl; try reflexivity; try assumption.
    + apply Hitems. now left.
    + now apply Z.ltb_ge in Ec.
Qed.

Lemma get_trending_topics_from (st : TrendScorer) (articles : list article)
  (topics : list topic) :
  get_trending_topics st articles = Ok topics ->
  forall r, In r topics -> exists v a, topic_from st r v a.
Proof.
  unfold get_trending_topics. intros H r Hr. inv_bind H. inv_Ok H.
  apply firstn_In in Hr. apply sorted_desc_In in Hr.
  apply in_map_iff in Hr as (kv & <- & Hkv).
  eapply topic_of_from; eauto.
  - intros item. apply most_common_In.
  - intros ? [].
Qed.



(** ** The scoring pass *)

Section ScoringFacts.
Variable log10 : Z -> float.
Variable now : Z.

(** The four phases behind a result of [score_articles]. *)
Lemma score_articles_phases (st st1 : TrendScorer) (articles scored : list article) :
  score_articles log10 now st articles = Ok (st1, scored) ->
  st1 = count_mentions st articles
  /\ exists term_scores rated,
       score_terms st1 = Ok term_scores
       /\ map_each (score_article log10 now term_scores) articles = Ok rated
       /\ scored = map (flag_trending (trending_threshold rated)) rated.
Proof.
  unfold score_articles. intros H. inv_bind H. inv_bind H.
  injection H as <- <-. eauto 6.
Qed.

Lemma score_article_fields (ts : list (string * float)) (a a' : article) :
  score_article log10 now ts a = Ok a' ->
  exists factor,
    _engagement_factor log10 a = Ok factor
    /\ a' = set_trend_score a
              (py_round2
                 (max_term_score ts a * factor
                  * _temporal_weight now
                      (match published a with Some d => d | None => now end))%float).
Proof.
  unfold score_article. intros H. inv_bind H. inv_Ok H. eauto.
Qed.



(** C9. [score_articles] returns the articles it was given, in the order
    it was given them; on each it writes [trend_score] and [is_trending]
    and leaves every other field as it was. *)
Theorem score_articles_frame
  (st st1 : TrendScorer) (articles scored : list article) :
  score_articles log10 now st articles = Ok (st1, scored) ->
  List.length scored = List.length articles
  /\ forall i a, nth_error articles i = Some a ->
       exists a',
         nth_error scored i = Some a'
         /\ title a' = title a
         /\ summary a' = summary a
         /\ source a' = source a
         /\ published a' = published a
         /\ engagement a' = engagement a
         /\ other_fields a' = other_fields a.
Proof.
  intros H.
  destruct (score_articles_phases _ _ _ _ H) as (_ & ts & rated & _ & Hr & ->).
  split.
  - rewrite length_map. eapply map_each_length, Hr.
  - intros i a Hi.
    destruct (map_each_nth _ _ _ Hr i a Hi) as (b & Hb & Hs).
    destruct (score_article_fields _ _ _ Hs) as (factor & _ & ->).
    eexists. split; [rewrite nth_error_map, Hb; reflexivity|].
    repeat split.
Qed.

(** C7. A term met exactly once in the batch has no entry in the term
    scores of the pass, counts for 0.0 in the maximum every article takes
    over its terms, from which the article's score is computed, and is the
    term of no record of [get_trending_topics]. *)
Theorem singleton_terms_excluded
  (h : list pyval) (articles scored : list article) (st1 : TrendScorer)
  (t : string) :
  count_occ string_dec (batch_terms articles) t = 1%nat ->
  score_articles log10 now (fresh_scorer h) articles = Ok (st1, scored) ->
  exists term_scores,
    score_terms st1 = Ok term_scores
    /\ assoc_get term_scores t = None
    /\ term_score_of term_scores t = 0%float
    /\ (forall a,
          max_term_score term_scores a
          = py_max_default
              (map (fun u => if String.eqb u t then 0%float
                             else term_score_of term_scores u)
                   (_extract_terms (text_of a)))
              0%float)
    /\ (forall i a, nth_error articles i = Some a ->
          exists a' factor,
            nth_error scored i = Some a'
            /\ _engagement_factor log10 a = Ok factor
            /\ trend_score a'
               = py_round2
                   (max_term_score term_scores a * factor
                    * _temporal_weight now
                        (match published a with Some d => d | None => now end))%float)
    /\ (forall topics, get_trending_topics st1 articles = Ok topics ->
          forall r, In r topics -> topic_term r <> t).
Proof.
  intros Hone H.
  destruct (score_articles_phases _ _ _ _ H) as (-> & ts & rated & Hts & Hr & ->).
  set (st1 := count_mentions (fresh_scorer h) articles) in *.
  assert (Hnd : NoDup (map fst (current_mentions st1)))
    by (apply count_mentions_NoDup; constructor).
  assert (Hcount : count_of (current_mentions st1) t = 1)
    by (unfold st1; rewrite count_mentions_fresh, Hone; reflexivity).
  assert (Hnone : assoc_get ts t = None).
  { unfold score_terms in Hts.
    rewrite (score_terms_untouched _ _ _ _ t Hts); [reflexivity|].
    intros c Hc. rewrite (count_of_In _ _ _ Hnd Hc) in Hcount. lia. }
  assert (Hzero : term_score_of ts t = 0%float)
    by (unfold term_score_of; now rewrite Hnone).
  exists ts. repeat split; try assumption.
  - intros a. unfold max_term_score. f_equal. apply map_ext. intros u.
    destruct (String.eqb u t) eqn:E; [|reflexivity].
    apply String.eqb_eq in E. now subst u.
  - intros i a Hi.
    destruct (map_each_nth _ _ _ Hr i a Hi) as (b & Hb & Hs).
    destruct (score_article_fields _ _ _ Hs) as (factor & Hf & ->).
    eexists. exists factor. split; [rewrite nth_error_map, Hb; reflexivity|].
    split; [exact Hf|reflexivity].
  - intros topics Htopics r Hin Heq.
    destruct (get_trending_topics_from _ _ _ Htopics r Hin)
      as (v & a & [Hitem Hc _ _ _ _ _ _ _ _]).
    rewrite Heq in Hitem. rewrite (count_of_In _ _ _ Hnd Hitem) in Hcount. lia.
Qed.

End ScoringFacts.

(** C8. The cross-source bonus is [min(1.0 + 0.15 * (n - 1), 2.0)], never
    above 2.0 and exactly 2.0 for 20 sources; the score of a term is its
    velocity times this bonus, in the term scores of phase 2 and, before the
    final rounding, in the records of [get_trending_topics] alike. *)
Theorem cross_source_bonus_shared
  (st : TrendScorer) (articles : list article)
  (term_scores : list (string * float)) (topics : list topic) :
  NoDup (map fst (current_mentions st)) ->
  score_terms st = Ok term_scores ->
  get_trending_topics st articles = Ok topics ->
  (forall n, cross_source_bonus n
             = py_min (1 + 0.15 * Z2F (Z.of_nat n - 1))%float 2%float)
  /\ cross_source_bonus 20 = 2%float
  /\ (forall n, (2 <? cross_source_bonus n)%float = false)
  /\ (forall t c, In (t, c) (current_mentions st) -> 2 <= c ->
        exists velocity,
          _calculate_velocity (history st) t c = Ok velocity
          /\ assoc_get term_scores t
             = Some (velocity
                     * cross_source_bonus
                         (List.length (sources_of (current_sources st) t)))%float)
  /\ (forall r, In r topics ->
        exists velocity,
          _calculate_velocity (history st) (topic_term r) (topic_mentions r)
          = Ok velocity
          /\ topic_num_sources r
             = List.length (sources_of (current_sources st) (topic_term r))
          /\ assoc_get term_scores (topic_term r)
             = Some (velocity * cross_source_bonus (topic_num_sources r))%float
          /\ topic_score r
             = py_round2 (velocity * cross_source_bonus (topic_num_sources r))%float).
Proof.
  intros Hnd Hts Htopics. split; [reflexivity|]. split; [reflexivity|].
  split; [|split].
  - intros n. unfold cross_source_bonus, py_min.
    destruct (2 <? 1 + 0.15 * Z2F (Z.of_nat n - 1))%float eqn:E; [reflexivity|exact E].
  - intros t c Hin Hc. eapply score_terms_entry; eauto.
  - intros r Hr.
    destruct (get_trending_topics_from _ _ _ Htopics r Hr)
      as (v & a & [Hitem Hc Hv _ _ _ Hn _ _ Hs]).
    destruct (score_terms_entry st _ _ _ _ _ Hnd Hts Hitem Hc) as (v' & Hv' & Hget).
    rewrite Hv in Hv'. inv_Ok Hv'.
    exists v'. rewrite Hn at 2. auto.
Qed.

(** ** The sample run *)

Lemma gpt5_scored_eq :
  score_articles no_log10 0 (fresh_scorer []) gpt5_batch
  = Ok (gpt5_counted, gpt5_scored).
Proof. vm_compute. reflexivity. Qed.

Lemma large_scored_eq :
  score_articles no_log10 0 (fresh_scorer []) large_batch
  = Ok (count_mentions (fresh_scorer []) large_batch, large_scored).
Proof. vm_compute. reflexivity. Qed.

Lemma gpt5_topics_eq : get_trending_topics gpt5_counted gpt5_batch = Ok [gpt5_topic].
Proof. vm_compute. reflexivity. Qed.

(** ** What a term is made of *)

Lemma Forall_firstn {A : Type} (P : A -> Prop) (n : nat) (l : list A) :
  Forall P l -> Forall P (firstn n l).
Proof.
  intros H. apply Forall_forall. intros x Hx.
  rewrite Forall_forall in H. now apply H, (firstn_In n).
Qed.

Lemma findall_from_In (m : matcher) (s : list ascii) :
  forall prev skip t,
    In t (findall_from m prev skip s) ->
    exists prev' s' len found,
      m prev' s' = Some (len, found) /\ t = string_of_list_ascii found.
Proof.
  induction s as [|c s IH]; intros prev skip t H; simpl in H; [contradiction|].
  destruct skip as [|k]; [|eauto].
  destruct (m prev (c :: s)) as [[len found]|] eqn:E; [|eauto].
  destruct H as [<-|H]; [|eauto].
  exists prev, (c :: s), len, found. auto.
Qed.

Lemma is_upper_term_char (c : ascii) : is_upper c = true -> term_char c = true.
Proof. unfold term_char, is_word, is_alnum. now intros ->. Qed.

Lemma is_alnum_term_char (c : ascii) : is_alnum c = true -> term_char c = true.
Proof. unfold term_char, is_word. now intros ->. Qed.

Lemma is_space_term_char (c : ascii) : is_space c = true -> term_char c = true.
Proof. unfold term_char. intros ->. apply orb_true_r. Qed.

Lemma caps_scan_chars (s : list ascii) :
  forall st pos best n,
    (forall b, best = Some b -> (b <= pos)%nat) ->
    caps_scan st pos best s = Some n ->
    Forall (fun c => term_char c = true) (firstn (n - pos) s).
Proof.
  induction s as [|c s IH]; intros st pos best n Hbest H.
  - now rewrite firstn_nil.
  - assert (Hfall : best = Some n ->
              Forall (fun c => term_char c = true) (firstn (n - pos) (c :: s))).
    { intros Hb. apply Hbest in Hb. replace (n - pos)%nat with O by lia. constructor. }
    assert (Hstep : forall st' best',
              (forall b, best' = Some b -> (b <= S pos)%nat) ->
              term_char c = true ->
              caps_scan st' (S pos) best' s = Some n ->
              Forall (fun c => term_char c = true) (firstn (n - pos) (c :: s))).
    { intros st' best' Hb' Hc Hrec. specialize (IH _ _ _ _ Hb' Hrec).
      destruct (n - pos)%nat as [|k] eqn:Ek; [constructor|].
      replace (n - S pos)%nat with k in IH by lia. simpl. now constructor. }
    destruct st; simpl in H.
    + destruct (is_alnum c) eqn:Ea.
      { apply (Hstep InWord best);
          [intros b Hb; apply Hbest in Hb; lia
          |now apply is_alnum_term_char|exact H]. }
      destruct (is_space c) eqn:Es.
      { apply (Hstep InGap (Some pos));
          [intros b Hb; inv_Ok Hb; lia
          |now apply is_space_term_char|exact H]. }
      destruct (is_word c); [now apply Hfall|].
      inv_Ok H. replace (n - n)%nat with O by lia. constructor.
    + destruct (is_space c) eqn:Es.
      { apply (Hstep InGap best);
          [intros b Hb; apply Hbest in Hb; lia
          |now apply is_space_term_char|exact H]. }
      destruct (is_upper c) eqn:Eu.
      { apply (Hstep InWord best);
          [intros b Hb; apply Hbest in Hb; lia
          |now apply is_upper_term_char|exact H]. }
      now apply Hfall.
Qed.

Lemma caps_pattern_chars (prev : option ascii) (s : list ascii) (len : nat)
  (found : list ascii) :
  caps_pattern prev s = Some (len, found) ->
  Forall (fun c => term_char c = true) found.
Proof.
  unfold caps_pattern. destruct s as [|c s]; [discriminate|].
  destruct (is_upper c) eqn:Eu; [|discriminate]. simpl.
  destruct (negb (is_word_opt prev)); [|discriminate].
  destruct (caps_scan InWord 1 None s) as [n|] eqn:E; [|discriminate].
  intros H. injection H as <- <-.
  destruct n as [|k]; [constructor|]. simpl.
  constructor; [now apply is_upper_term_char|].
  replace k with (S k - 1)%nat by lia.
  eapply caps_scan_chars; [|exact E]. discriminate.
Qed.

Lemma upper_run_chars (limit : nat) (s : list ascii) :
  Forall (fun c => term_char c = true) (firstn (upper_run limit s) s).
Proof.
  revert s. induction limit as [|l IH]; intros s; simpl; [constructor|].
  destruct s as [|c s]; [constructor|].
  destruct (is_upper c) eqn:E; simpl; [|constructor].
  constructor; [now apply is_upper_term_char|apply IH].
Qed.

Lemma acronym_pattern_chars (prev : option ascii) (s : list ascii) (len : nat)
  (found : list ascii) :
  acronym_pattern prev s = Some (len, found) ->
  Forall (fun c => term_char c = true) found.
Proof.
  unfold acronym_pattern. destruct (is_word_opt prev); [discriminate|].
  remember (upper_run 6 s) as n eqn:En.
  destruct ((2 <=? n)%nat && negb (is_word_opt (nth_error s n))); [|discriminate].
  intros H. injection H as <- <-. subst n. apply upper_run_chars.
Qed.

Lemma word_run_chars (s : list ascii) :
  Forall (fun c => term_char c = true) (word_run s).
Proof.
  induction s as [|c s IH]; simpl; [constructor|].
  destruct (is_word c) eqn:E; [|constructor].
  constructor; [|exact IH]. unfold term_char. now rewrite E.
Qed.

Lemma hashtag_pattern_chars (prev : option ascii) (s : list ascii) (len : nat)
  (found : list ascii) :
  hashtag_pattern prev s = Some (len, found) ->
  Forall (fun c => term_char c = true) found.
Proof.
  unfold hashtag_pattern. destruct s as [|c s]; [discriminate|].
  destruct (code c =? 35)%nat; [|discriminate].
  pose proof (word_run_chars s) as Hw.
  destruct (word_run s) as [|w ws]; [discriminate|].
  intros H. injection H as <- <-. exact Hw.
Qed.

Lemma findall_chars (m : matcher) (text t : string) :
  (forall prev s len found, m prev s = Some (len, found) ->
     Forall (fun c => term_char c = true) found) ->
  In t (findall m text) ->
  Forall (fun c => term_char c = true) (list_ascii_of_string t).
Proof.
  intros Hm Hin. unfold findall in Hin.
  apply findall_from_In in Hin as (prev & s & len & found & E & ->).
  rewrite list_ascii_of_string_of_list_ascii. eauto.
Qed.

Lemma lstrip_chars (P : ascii -> Prop) (s : list ascii) :
  Forall P s -> Forall P (lstrip s).
Proof.
  induction 1 as [|c s Hc Hs IH]; simpl; [constructor|].
  destruct (is_space c); [exact IH|now constructor].
Qed.

Lemma py_strip_chars (P : ascii -> Prop) (s : string) :
  Forall P (list_ascii_of_string s) -> Forall P (list_ascii_of_string (py_strip s)).
Proof.
  intros H. unfold py_strip. rewrite list_ascii_of_string_of_list_ascii.
  apply Forall_rev, lstrip_chars, Forall_rev, lstrip_chars, H.
Qed.

(** Every extracted term is made of word characters and blanks. *)
Lemma extract_terms_chars (text t : string) :
  In t (_extract_terms text) ->
  Forall (fun c => term_char c = true) (list_ascii_of_string t).
Proof.
  unfold _extract_terms. destruct text as [|c0 text0]; [intros []|].
  set (text := String c0 text0). intros H.
  apply in_app_or in H as [H|H]; [|apply in_app_or in H as [H|H]].
  - apply filter_In in H as [H _]. apply in_map_iff in H as (cap & <- & H).
    apply py_strip_chars. eapply findall_chars; [|exact H]. apply caps_pattern_chars.
  - apply filter_In in H as [H _].
    eapply findall_chars; [|exact H]. apply acronym_pattern_chars.
  - eapply findall_chars; [|exact H]. apply hashtag_pattern_chars.
Qed.



(** ** The pass returns

    Without history no average is divided by, so nothing can overflow: the
    pass returns as soon as the engagement factor of every article does. *)

Lemma calculate_velocity_no_history (term : string) (c : Z) :
  _calculate_velocity [] term c = Ok (if 2 <=? c then 2%float else 1.5%float).
Proof. reflexivity. Qed.

Lemma for_each_returns {A S : Type} (body : S -> A -> result S) (l : list A) :
  (forall acc x, In x l -> exists acc', body acc x = Ok acc') ->
  forall acc, exists final, for_each body l acc = Ok final.
Proof.
  induction l as [|x l IH]; intros Hbody acc; simpl; [eauto|].
  destruct (Hbody acc x (or_introl eq_refl)) as (acc' & ->). cbn [bind].
  apply IH. intros acc0 y Hy. apply Hbody. now right.
Qed.

Lemma map_each_returns {A B : Type} (f : A -> result B) (l : list A) :
  (forall x, In x l -> exists y, f x = Ok y) ->
  exists ys, map_each f l = Ok ys.
Proof.
  induction l as [|x l IH]; intros Hf; simpl; [eauto|].
  destruct (Hf x (or_introl eq_refl)) as (y & ->). cbn [bind].
  destruct IH as (ys & ->); [intros z Hz; apply Hf; now right|].
  cbn [bind]. eauto.
Qed.

Lemma score_terms_returns (st : TrendScorer) :
  history st = [] -> exists term_scores, score_terms st = Ok term_scores.
Proof.
  intros Hh. unfold score_terms. apply for_each_returns.
  intros acc [t c] _. unfold score_term. destruct (c <? 2); [eauto|].
  rewrite Hh, calculate_velocity_no_history. cbn [bind]. eauto.
Qed.

Lemma get_trending_topics_returns (st : TrendScorer) (articles : list article) :
  history st = [] -> exists topics, get_trending_topics st articles = Ok topics.
Proof.
  intros Hh. unfold get_trending_topics.
  destruct (for_each_returns (topic_of st) (most_common 100 (current_mentions st)))
    with (acc := @nil (string * topic)) as (td & ->); [|cbn [bind]; eauto].
  intros acc [t c] _. unfold topic_of. destruct (c <? 2); [eauto|].
  rewrite Hh, calculate_velocity_no_history. cbn [bind].
  destruct (_ <? 1)%float; [eauto|]. cbn [_get_historical_avg bind]. eauto.
Qed.

Lemma engagement_factor_absent (log10 : Z -> float) (a : article) :
  engagement a = None -> _engagement_factor log10 a = Ok 1%float.
Proof. unfold _engagement_factor. now intros ->. Qed.

Lemma score_articles_returns (log10 : Z -> float) (now : Z) (st : TrendScorer)
  (articles : list article) :
  history st = [] ->
  (forall a, In a articles -> exists factor, _engagement_factor log10 a = Ok factor) ->
  exists st1 scored, score_articles log10 now st articles = Ok (st1, scored).
Proof.
  intros Hh Heng. unfold score_articles.
  destruct (score_terms_returns (count_mentions st articles)) as (ts & ->).
  { destruct (count_mentions_mentions st articles) as [_ ->]. exact Hh. }
  cbn [bind].
  destruct (map_each_returns (score_article log10 now ts) articles) as (rated & ->).
  { intros a Ha. unfold score_article. destruct (Heng a Ha) as (factor & ->).
    cbn [bind]. eauto. }
  cbn [bind]. eauto.
Qed.

(** ** The GPT-5 scenario *)









Lemma set_add_idem (x : string) (s : list string) :
  set_add x (set_add x s) = set_add x s.
Proof.
  unfold set_add. destruct (str_in x s) eqn:E; [now rewrite E|].
  unfold str_in in *. rewrite existsb_app, E. simpl.
  now rewrite String.eqb_refl.
Qed.

Lemma sources_of_add (cs : list (string * list string)) (t src t' : string) :
  sources_of (sources_add cs t src) t'
  = if String.eqb t t' then set_add src (sources_of cs t') else sources_of cs t'.
Proof.
  unfold sources_of. induction cs as [|[k s] cs IH]; simpl.
  - destruct (String.eqb t t'); reflexivity.
  - destruct (String.eqb k t) eqn:E; simpl.
    + apply String.eqb_eq in E. subst k. destruct (String.eqb t t'); reflexivity.
    + destruct (String.eqb k t') eqn:E'.
      * apply String.eqb_eq in E'. subst k. now rewrite String.eqb_sym, E.
      * exact IH.
Qed.

Lemma count_terms_sources (src : string) (terms : list string) (t : string) :
  forall st,
    sources_of (current_sources (fold_left (count_term src) terms st)) t
    = if str_in t terms
      then set_add src (sources_of (current_sources st) t)
      else sources_of (current_sources st) t.
Proof.
  induction terms as [|u terms IH]; intros st; simpl; [reflexivity|].
  rewrite IH. cbn [count_term current_sources]. rewrite sources_of_add.
  rewrite (String.eqb_sym t u).
  destruct (String.eqb u t); simpl.
  - destruct (str_in t terms); [apply set_add_idem|reflexivity].
  - reflexivity.
Qed.

Lemma str_in_In (t : string) (l : list string) : In t l -> str_in t l = true.
Proof.
  intros H. unfold str_in. apply existsb_exists. exists t.
  split; [exact H|apply String.eqb_refl].
Qed.











(** ** Instances on the sample run *)


Lemma score_articles_frame_witness :
  score_articles no_log10 0 (fresh_scorer []) gpt5_batch
  = Ok (gpt5_counted, gpt5_scored)
  /\ List.length gpt5_scored = List.length gpt5_batch
  /\ exists a',
       nth_error gpt5_scored 1 = Some a'
       /\ title a' = Some "OpenAI ships GPT-5"
       /\ source a' = Some "The Verge"
       /\ other_fields a' = [("type", PStr "rss")].
Proof.
  assert (H : score_articles no_log10 0 (fresh_scorer []) gpt5_batch
              = Ok (gpt5_counted, gpt5_scored)) by (vm_compute; reflexivity).
  split; [exact H|].
  destruct (score_articles_frame no_log10 0 _ _ _ _ H) as (Hlen & Hnth).
  split; [exact Hlen|].
  destruct (Hnth 1%nat (sample_article "OpenAI ships GPT-5" "The Verge") eq_refl)
    as (a' & Ha' & Ht & _ & Hs & _ & _ & Ho).
  exists a'. auto.
Defined.

Lemma singleton_terms_excluded_witness :
  count_occ string_dec (batch_terms gpt5_batch) "OpenAI" = 1%nat
  /\ exists term_scores,
       score_terms gpt5_counted = Ok term_scores
       /\ assoc_get term_scores "OpenAI" = None
       /\ term_score_of term_scores "OpenAI" = 0%float
       /\ forall topics, get_trending_topics gpt5_counted gpt5_batch = Ok topics ->
            forall r, In r topics -> topic_term r <> "OpenAI".
Proof.
  assert (Hone : count_occ string_dec (batch_terms gpt5_batch) "OpenAI" = 1%nat)
    by (vm_compute; reflexivity).
  assert (H : score_articles no_log10 0 (fresh_scorer []) gpt5_batch
              = Ok (gpt5_counted, gpt5_scored)) by (vm_compute; reflexivity).
  split; [exact Hone|].
  destruct (singleton_terms_excluded no_log10 0 [] gpt5_batch gpt5_scored
              gpt5_counted "OpenAI" Hone H)
    as (ts & Hts & Hnone & Hzero & _ & _ & Htopics).
  exists ts. auto.
Defined.

Lemma cross_source_bonus_shared_witness :
  score_terms gpt5_counted = Ok [("GPT", 2.3%float)]
  /\ get_trending_topics gpt5_counted gpt5_batch = Ok [gpt5_topic]
  /\ cross_source_bonus 20 = 2%float
  /\ exists velocity,
       _calculate_velocity (history gpt5_counted) "GPT" 6 = Ok velocity
       /\ assoc_get [("GPT", 2.3%float)] "GPT"
          = Some (velocity * cross_source_bonus 2)%float
       /\ topic_score gpt5_topic = py_round2 (velocity * cross_source_bonus 2)%float.
Proof.
  assert (Hts : score_terms gpt5_counted = Ok [("GPT", 2.3%float)])
    by (vm_compute; reflexivity).
  assert (Htopics : get_trending_topics gpt5_counted gpt5_batch = Ok [gpt5_topic])
    by (vm_compute; reflexivity).
  assert (Hnd : NoDup (map fst (current_mentions gpt5_counted)))
    by (vm_compute; repeat constructor; simpl; intuition discriminate).
  split; [exact Hts|]. split; [exact Htopics|].
  destruct (cross_source_bonus_shared gpt5_counted gpt5_batch _ _ Hnd Hts Htopics)
    as (_ & H20 & _ & _ & Hrec).
  split; [exact H20|].
  destruct (Hrec gpt5_topic (or_introl eq_refl)) as (v & Hv & _ & Hget & Hscore).
  exists v. auto.
Defined.


(** * Further properties *)

(** ** The history window *)

Lemma prune_filter (cutoff : string) (l kept : list pyval) :
  prune cutoff l = Ok kept -> kept = filter (recent cutoff) l.
Proof.
  revert kept. induction l as [|s l IH]; intros kept H; simpl in H.
  - now inv_Ok H.
  - inv_bind H. inv_bind H. inv_bind H. inv_Ok H.
    rewrite (IH _ E1). simpl.
    destruct s as [| | | | | |d]; try discriminate. simpl in E. inv_Ok E. simpl.
    destruct (assoc_get d "timestamp") as [[| | | |ts| |]|]; try discriminate;
      simpl in E0; inv_Ok E0; reflexivity.
Qed.

Lemma keep_shaped (cutoff : string) (s : pyval) :
  has_snapshot_shape s = true ->
  (ts <- py_get s "timestamp" (PStr "") ;; py_ge_str ts cutoff)
  = Ok (recent cutoff s).
Proof.
  destruct s as [| | | | | |d]; try discriminate. unfold has_snapshot_shape, recent.
  cbn [py_get bind].
  destruct (assoc_get d "timestamp") as [[| | | |ts| |]|]; try discriminate;
    reflexivity.
Qed.

Lemma prune_shaped (cutoff : string) (l : list pyval) :
  forallb has_snapshot_shape l = true ->
  prune cutoff l = Ok (filter (recent cutoff) l).
Proof.
  induction l as [|s l IH]; intros H; [reflexivity|].
  cbn [forallb] in H. apply andb_true_iff in H as [Hs Hl].
  pose proof (keep_shaped cutoff s Hs) as Hk.
  cbn [prune filter]. rewrite (IH Hl).
  destruct (py_get s "timestamp" (PStr "")) as [ts|e]; cbn [bind] in *;
    [|discriminate].
  rewrite Hk. cbn [bind]. reflexivity.
Qed.

Lemma prune_raises (cutoff : string) (l : list pyval) (e : exn) :
  prune cutoff l = Raise e -> e = AttributeError \/ e = TypeError.
Proof.
  induction l as [|s l IH]; simpl; [discriminate|].
  destruct (py_get s "timestamp" (PStr "")) as [ts|e1] eqn:E1; simpl.
  - destruct (py_ge_str ts cutoff) as [keep|e2] eqn:E2; simpl.
    + destruct (prune cutoff l) as [kept|e3]; simpl; [discriminate|].
      intros H. injection H as <-. now apply IH.
    + intros H. injection H as <-. right.
      unfold py_ge_str in E2. destruct ts; congruence.
  - intros H. injection H as <-. left.
    unfold py_get in E1. destruct s; congruence.
Qed.

(** X1. When the history file holds a list of snapshots, each a dictionary
    whose timestamp is a string or absent, [_load_history] returns without
    warning exactly the snapshots whose timestamp is at least the cutoff, in
    the order of the file; a snapshot without timestamp counts as stamped
    with the empty string.  And whatever list the file holds, a history
    returned without warning is that selection. *)
Theorem load_history_keeps_window (cutoff : string) (l : list pyval) :
  (forallb has_snapshot_shape l = true ->
   _load_history cutoff (Json (PList l)) = (Ok (filter (recent cutoff) l), []))
  /\ (forall h, _load_history cutoff (Json (PList l)) = (Ok h, []) ->
        h = filter (recent cutoff) l).
Proof.
  unfold _load_history. cbn [file_exists read_json bind py_iter]. split.
  - intros H. now rewrite (prune_shaped cutoff l H).
  - intros h. destruct (prune cutoff l) as [kept|e] eqn:E.
    + intros H. injection H as <-. now apply prune_filter.
    + destruct e; discriminate.
Qed.

(** X2. Whatever is at the path, [_load_history] either returns a history
    without warning, or logs the corruption warning and returns the empty
    history, or lets an exception out without logging.  The exception that
    leaves is never a [JSONDecodeError] or a [TypeError]; a plain
    [ValueError] of [json.load], raised for an integer literal beyond the
    digit limit, and a [RecursionError] do leave.  An absent file gives the
    empty history without warning. *)
Theorem load_history_outcomes (cutoff : string) (f : history_file) :
  _load_history cutoff Absent = (Ok [], [])
  /\ _load_history cutoff HugeInt = (Raise ValueError, [])
  /\ _load_history cutoff TooDeep = (Raise RecursionError, [])
  /\ match _load_history cutoff f with
     | (Ok h, log) => log = [] \/ (log = [corrupted_warning] /\ h = [])
     | (Raise e, log) =>
         log = [] /\ e <> JSONDecodeError /\ e <> TypeError
     end.
Proof.
  split; [reflexivity|]. split; [reflexivity|]. split; [reflexivity|].
  unfold _load_history.
  destruct f as [| | | | | |data]; cbn [file_exists read_json bind];
    try (now left); try (right; now split);
    try (split; [reflexivity|split; discriminate]).
  destruct (py_iter data) as [items|e] eqn:Ei; cbn [bind].
  - destruct (prune cutoff items) as [kept|e] eqn:Ep; [now left|].
    destruct (prune_raises _ _ _ Ep) as [-> | ->].
    + split; [reflexivity|split; discriminate].
    + right. now split.
  - unfold py_iter in Ei. destruct data; try discriminate; inv_Ok Ei.
    all: right; now split.
Qed.

Lemma load_history_keeps_window_witness :
  forallb has_snapshot_shape sample_history = true
  /\ _load_history "2024-05-01T12:00:00.000000+00:00" (Json (PList sample_history))
     = (Ok [ PDict [ ("timestamp", PStr "2024-05-02T09:00:00.000000+00:00");
                     ("mentions", PDict [("GPT", PInt 2)]) ] ], []).
Proof.
  split; [reflexivity|].
  exact (proj1 (load_history_keeps_window "2024-05-01T12:00:00.000000+00:00"
                  sample_history) eq_refl).
Defined.

(** ** The snapshot saved *)

(** X3. A [save_history] whose timestamp is inside the window leaves as
    history the old snapshots that are still inside the window followed by
    one new snapshot, and writes that history to the file.  The new
    snapshot holds at most 200 terms, all of them when there are fewer, and
    no term left out is mentioned more often than a term it holds. *)
Theorem save_history_snapshot
  (st st' : TrendScorer) (timestamp cutoff : string) (f : history_file) :
  String.leb cutoff timestamp = true ->
  save_history timestamp cutoff st = Ok (st', f) ->
  exists mentions,
    history st'
    = (filter (recent cutoff) (history st)
       ++ [PDict [("timestamp", PStr timestamp); ("mentions", PDict mentions)]])%list
    /\ f = Json (PList (history st'))
    /\ List.length mentions = Nat.min 200 (List.length (current_mentions st))
    /\ (forall t c, In (t, c) (current_mentions st) ->
          assoc_get mentions t = None ->
          forall t' v, In (t', v) mentions -> exists c', v = PInt c' /\ c <= c').
Proof.
  intros Hin H. unfold save_history in H. inv_bind H. injection H as <- <-.
  destruct (prune_app _ _ _ _ E) as (k1 & k2 & H1 & H2 & ->).
  rewrite (prune_snapshot _ _ _ Hin) in H2. inv_Ok H2.
  rewrite (prune_filter _ _ _ H1).
  eexists. split; [reflexivity|]. split; [reflexivity|]. split.
  - rewrite length_map. unfold most_common.
    now rewrite length_firstn, sorted_desc_length.
  - intros t c Hc Hnone t' v Hv.
    apply in_map_iff in Hv as ([t0 c0] & Heq & Hkept). simpl in Heq.
    injection Heq as <- <-. exists c0. split; [reflexivity|].
    apply (most_common_dominates 200 (current_mentions st) (t0, c0) (t, c) Hkept Hc).
    intros Hdrop. apply (assoc_get_None_not_In _ t (PInt c) Hnone).
    apply in_map_iff. exists (t, c). auto.
Qed.

Lemma save_history_snapshot_witness :
  String.leb save_cutoff save_time = true
  /\ exists mentions,
       filter (recent save_cutoff) sample_history
       = [ PDict [ ("timestamp", PStr "2024-05-02T09:00:00.000000+00:00");
                   ("mentions", PDict [("GPT", PInt 2)]) ] ]
       /\ List.length mentions = Nat.min 200 (List.length (current_mentions sample_scorer))
       /\ forall t c, In (t, c) (current_mentions sample_scorer) ->
            assoc_get mentions t = None ->
            forall t' v, In (t', v) mentions -> exists c', v = PInt c' /\ c <= c'.
Proof.
  split; [reflexivity|].
  destruct (save_history_snapshot sample_scorer
              {| history :=
                   [ PDict [ ("timestamp", PStr "2024-05-02T09:00:00.000000+00:00");
                             ("mentions", PDict [("GPT", PInt 2)]) ];
                     snapshot_of save_time (current_mentions sample_scorer) ];
                 current_mentions := current_mentions sample_scorer;
                 current_sources := current_sources sample_scorer |}
              save_time save_cutoff _ eq_refl ltac:(vm_compute; reflexivity))
    as (mentions & _ & _ & Hlen & Htop).
  exists mentions. split; [reflexivity|]. split; assumption.
Defined.

(** ** Term extraction *)

Lemma findall_from_none (m : matcher) (s : list ascii) :
  (forall prev c rest, In c s -> m prev (c :: rest) = None) ->
  forall prev, findall_from m prev O s = [].
Proof.
  induction s as [|c s IH]; intros Hm prev; simpl; [reflexivity|].
  rewrite (Hm prev c s (or_introl eq_refl)).
  apply IH. intros prev' c' rest Hc'. apply Hm. now right.
Qed.

(** X4. A text without upper-case letter and without hash sign yields no
    term at all. *)
Theorem extract_terms_lowercase (text : string) :
  forallb starts_no_term (list_ascii_of_string text) = true ->
  _extract_terms text = [].
Proof.
  intros H. rewrite forallb_forall in H.
  assert (Hup : forall c, In c (list_ascii_of_string text) -> is_upper c = false).
  { intros c Hc. apply H in Hc. unfold starts_no_term in Hc.
    apply andb_true_iff in Hc as [Hc _]. now apply negb_true_iff in Hc. }
  assert (Hhash : forall c, In c (list_ascii_of_string text) -> (code c =? 35)%nat = false).
  { intros c Hc. apply H in Hc. unfold starts_no_term in Hc.
    apply andb_true_iff in Hc as [_ Hc]. now apply negb_true_iff in Hc. }
  unfold _extract_terms. destruct text as [|c0 text0]; [reflexivity|].
  set (text := String c0 text0) in *. unfold findall.
  rewrite (findall_from_none caps_pattern), (findall_from_none acronym_pattern),
    (findall_from_none hashtag_pattern); [reflexivity| | |].
  - intros prev c rest Hc. unfold hashtag_pattern. now rewrite (Hhash c Hc).
  - intros prev c rest Hc. unfold acronym_pattern.
    destruct (is_word_opt prev); [reflexivity|].
    cbn [upper_run]. now rewrite (Hup c Hc).
  - intros prev c rest Hc. unfold caps_pattern. now rewrite (Hup c Hc).
Qed.

Lemma extract_terms_lowercase_witness :
  _extract_terms "the quick brown fox, 3 times - again_and again" = [].
Proof.
  exact (extract_terms_lowercase "the quick brown fox, 3 times - again_and again"
           eq_refl).
Defined.

Lemma string_length_list (s : string) :
  String.length s = List.length (list_ascii_of_string s).
Proof. induction s as [|c s IH]; simpl; [reflexivity|now rewrite IH]. Qed.

Lemma upper_run_le (limit : nat) (s : list ascii) :
  (upper_run limit s <= List.length s)%nat.
Proof.
  revert s. induction limit as [|l IH]; intros s; simpl; [lia|].
  destruct s as [|c s]; simpl; [lia|].
  destruct (is_upper c); simpl; [specialize (IH s)|]; lia.
Qed.

(** X5. Every term [_extract_terms] returns is non-empty and made only of
    letters, digits, underscores and white space: no punctuation, hyphen or
    dot ever enters a term. *)
Theorem extract_terms_well_formed (text t : string) :
  In t (_extract_terms text) ->
  t <> ""
  /\ Forall (fun c => term_char c = true) (list_ascii_of_string t).
Proof.
  intros H. split; [|now apply (extract_terms_chars text)].
  unfold _extract_terms in H. destruct text as [|c0 text0]; [destruct H|].
  set (text := String c0 text0) in *.
  apply in_app_or in H as [H|H]; [|apply in_app_or in H as [H|H]].
  - apply filter_In in H as [_ H]. apply andb_true_iff in H as [H _].
    apply Nat.leb_le in H. intros ->. simpl in H. lia.
  - apply filter_In in H as [H _]. unfold findall in H.
    apply findall_from_In in H as (prev & s & len & found & E & ->).
    unfold acronym_pattern in E. destruct (is_word_opt prev); [discriminate|].
    remember (upper_run 6 s) as n eqn:En.
    destruct (2 <=? n)%nat eqn:E2; [|discriminate].
    destruct (negb (is_word_opt (nth_error s n))); [|discriminate].
    injection E as _ <-. apply Nat.leb_le in E2.
    pose proof (upper_run_le 6 s) as Hle. rewrite <- En in Hle.
    intros Hempty. apply (f_equal String.length) in Hempty.
    rewrite string_length_list, list_ascii_of_string_of_list_ascii,
      length_firstn in Hempty. simpl in Hempty. lia.
  - unfold findall in H.
    apply findall_from_In in H as (prev & s & len & found & E & ->).
    unfold hashtag_pattern in E. destruct s as [|c s]; [discriminate|].
    destruct (code c =? 35)%nat; [|discriminate].
    destruct (word_run s) as [|w ws]; [discriminate|].
    injection E as _ <-. discriminate.
Qed.

Lemma extract_terms_well_formed_witness :
  In "GPT" (_extract_terms "OpenAI ships GPT-5")
  /\ "GPT" <> ""
  /\ Forall (fun c => term_char c = true) (list_ascii_of_string "GPT").
Proof.
  assert (H : In "GPT" (_extract_terms "OpenAI ships GPT-5"))
    by (vm_compute; auto).
  split; [exact H|].
  exact (extract_terms_well_formed "OpenAI ships GPT-5" "GPT" H).
Defined.

(** ** The counters across passes *)

Lemma count_term_mentions (src : string) (terms : list string) :
  forall st,
    current_mentions (fold_left (count_term src) terms st)
    = fold_left counter_incr terms (current_mentions st).
Proof.
  induction terms as [|u terms IH]; intros st; simpl; [reflexivity|].
  now rewrite IH.
Qed.

Lemma set_add_In (x y : string) (s : list string) :
  In y s -> In y (set_add x s).
Proof.
  intros H. unfold set_add. destruct (str_in x s); [exact H|].
  apply in_or_app. now left.
Qed.

Lemma str_in_false (x : string) (s : list string) :
  str_in x s = false -> ~ In x s.
Proof. intros H Hin. now rewrite (str_in_In _ _ Hin) in H. Qed.

Lemma set_add_NoDup (x : string) (s : list string) :
  NoDup s -> NoDup (set_add x s).
Proof.
  intros H. unfold set_add. destruct (str_in x s) eqn:E; [exact H|].
  apply NoDup_app; [exact H|repeat constructor; intros []|].
  intros y Hy [<-|[]]. exact (str_in_false _ _ E Hy).
Qed.

Lemma set_add_length (x : string) (s : list string) :
  (List.length s <= List.length (set_add x s) <= S (List.length s))%nat
  /\ (1 <= List.length (set_add x s))%nat.
Proof.
  unfold set_add. destruct (str_in x s) eqn:E.
  - split; [lia|]. destruct s; [discriminate|simpl; lia].
  - rewrite length_app. simpl. lia.
Qed.

Lemma count_article_sources_In (st : TrendScorer) (a : article) (t src : string) :
  In src (sources_of (current_sources st) t) ->
  In src (sources_of (current_sources (count_article st a)) t).
Proof.
  intros H. unfold count_article. rewrite count_terms_sources.
  destruct (str_in t _); [now apply set_add_In|exact H].
Qed.

Lemma count_mentions_sources_In (articles : list article) (t src : string) :
  forall st,
    In src (sources_of (current_sources st) t) ->
    In src (sources_of (current_sources (count_mentions st articles)) t).
Proof.
  induction articles as [|a articles IH]; intros st H; [exact H|].
  apply IH. now apply count_article_sources_In.
Qed.

Lemma count_term_consistent (src : string) (st : TrendScorer) (u : string) :
  counters_consistent st -> counters_consistent (count_term src st u).
Proof.
  intros Hc t. destruct (Hc t) as (Hle & Hpos & Hnd).
  cbn [count_term current_mentions current_sources].
  rewrite count_of_incr, sources_of_add.
  destruct (String.eqb u t).
  - pose proof (set_add_length src (sources_of (current_sources st) t)) as [Hl H1].
    repeat split; [lia|intros _; exact H1|now apply set_add_NoDup].
  - rewrite Z.add_0_r. repeat split; assumption.
Qed.

Lemma count_article_consistent (st : TrendScorer) (a : article) :
  counters_consistent st -> counters_consistent (count_article st a).
Proof.
  unfold count_article. generalize (_extract_terms (text_of a)) as terms.
  intros terms. revert st.
  induction terms as [|u terms IH]; intros st H; [exact H|].
  apply IH. now apply count_term_consistent.
Qed.

Lemma count_mentions_consistent (articles : list article) :
  forall st, counters_consistent st ->
             counters_consistent (count_mentions st articles).
Proof.
  induction articles as [|a articles IH]; intros st H; [exact H|].
  apply IH. now apply count_article_consistent.
Qed.

Lemma fresh_scorer_consistent (h : list pyval) :
  counters_consistent (fresh_scorer h).
Proof.
  intros t. unfold fresh_scorer, count_of, sources_of. simpl.
  repeat split; [lia|lia|constructor].
Qed.

Section FurtherScoring.

Variable log10 : Z -> float.
Variable now : Z.

(** X6. A pass never resets the counters: after [score_articles] the count
    of every term is its count before the pass plus its occurrences among
    the terms of the batch, every source recorded before is still recorded,
    the agreement of the two counters is kept and the history is the one
    the scorer had. *)
Theorem score_articles_accumulates
  (st st1 : TrendScorer) (articles scored : list article) :
  score_articles log10 now st articles = Ok (st1, scored) ->
  history st1 = history st
  /\ (forall t,
        count_of (current_mentions st1) t
        = count_of (current_mentions st) t
          + Z.of_nat (count_occ string_dec (batch_terms articles) t))
  /\ (forall t src,
        In src (sources_of (current_sources st) t) ->
        In src (sources_of (current_sources st1) t))
  /\ (counters_consistent st -> counters_consistent st1).
Proof.
  intros H.
  destruct (score_articles_phases _ _ _ _ _ _ H) as (-> & _).
  destruct (count_mentions_mentions st articles) as [Hm Hh].
  split; [exact Hh|]. split; [|split].
  - intros t. rewrite Hm. apply fold_incr_count.
  - intros t src. apply count_mentions_sources_In.
  - apply count_mentions_consistent.
Qed.


(** ** The bar of the trending flag *)

Lemma trending_bar_floor (thr x : float) :
  (py_max thr 0.5 <=? x)%float = true -> (0.5 <=? x)%float = true.
Proof.
  unfold py_max. destruct (thr <? 0.5)%float eqn:E; intros H; [exact H|].
  destruct (leb_not_nan _ _ H) as [Hthr _].
  apply (leb_trans _ thr); [|exact H].
  apply not_ltb_leb; [exact Hthr|discriminate|exact E].
Qed.

Lemma trending_bar_above_zero (thr z : float) (s : bool) :
  Prim2SF z = S754_zero s -> (py_max thr 0.5 <=? z)%float = false.
Proof.
  intros Hz. destruct (py_max thr 0.5 <=? z)%float eqn:E; [|reflexivity].
  apply trending_bar_floor in E. rewrite leb_spec, Hz in E.
  vm_compute in E. discriminate.
Qed.

Lemma scored_article_flag (thr : float) (rated : list article) (a : article) :
  In a (map (flag_trending thr) rated) ->
  is_trending a = (py_max thr 0.5 <=? trend_score a)%float.
Proof.
  intros H. apply in_map_iff in H as (a0 & <- & _). reflexivity.
Qed.

(** X7. Whatever the size of the batch, an article flagged as trending
    scores at least 0.5, and the flag follows the score: an article that
    scores at least as much as a trending article of the same pass is
    trending too. *)
Theorem trending_flag_monotone
  (st st1 : TrendScorer) (articles scored : list article) :
  score_articles log10 now st articles = Ok (st1, scored) ->
  (forall a, In a scored -> is_trending a = true ->
     (0.5 <=? trend_score a)%float = true)
  /\ (forall a b, In a scored -> In b scored ->
        is_trending a = true ->
        (trend_score a <=? trend_score b)%float = true ->
        is_trending b = true).
Proof.
  intros H.
  destruct (score_articles_phases _ _ _ _ _ _ H) as (_ & ts & rated & _ & _ & ->).
  split.
  - intros a Ha Ht. rewrite (scored_article_flag _ _ _ Ha) in Ht.
    exact (trending_bar_floor _ _ Ht).
  - intros a b Ha Hb Ht Hle.
    rewrite (scored_article_flag _ _ _ Ha) in Ht.
    rewrite (scored_article_flag _ _ _ Hb).
    exact (leb_trans _ _ _ Ht Hle).
Qed.

(** ** Articles without a repeated term *)

Lemma mul_zero_finite (x y : float) (s : bool) :
  Prim2SF x = S754_zero s -> is_finite y = true ->
  exists s', Prim2SF (x * y) = S754_zero s'.
Proof.
  intros Hx Hy. apply is_finite_SF in Hy.
  rewrite mul_spec, Hx. destruct (Prim2SF y); try discriminate; simpl; eauto.
Qed.

Lemma py_round2_zero (x : float) (s : bool) :
  Prim2SF x = S754_zero s -> py_round2 x = x.
Proof. intros H. unfold py_round2. now rewrite H. Qed.

Lemma eqb_zero (x : float) (s : bool) :
  Prim2SF x = S754_zero s -> (x =? 0)%float = true.
Proof. intros H. rewrite eqb_spec, H. reflexivity. Qed.

Lemma temporal_weight_finite (d : Z) : is_finite (_temporal_weight now d) = true.
Proof.
  unfold _temporal_weight.
  repeat match goal with |- context [if ?b then _ else _] => destruct b end;
    reflexivity.
Qed.

Lemma fold_py_max_zero (l : list float) :
  (forall x, In x l -> x = 0%float) -> fold_left py_max l 0%float = 0%float.
Proof.
  induction l as [|x l IH]; intros H; simpl; [reflexivity|].
  rewrite (H x (or_introl eq_refl)).
  change (py_max 0 0) with 0%float. apply IH. intros y Hy. apply H. now right.
Qed.

Lemma max_term_score_zero (ts : list (string * float)) (a : article) :
  (forall t, In t (_extract_terms (text_of a)) -> assoc_get ts t = None) ->
  max_term_score ts a = 0%float.
Proof.
  intros H. unfold max_term_score, py_max_default.
  destruct (_extract_terms (text_of a)) as [|t terms]; [reflexivity|].
  cbn [map]. unfold term_score_of at 2. rewrite (H t (or_introl eq_refl)).
  apply fold_py_max_zero. intros x Hx.
  apply in_map_iff in Hx as (u & <- & Hu).
  unfold term_score_of. now rewrite (H u (or_intror Hu)).
Qed.

(** X8. In a pass of a new scorer, an article none of whose terms is met
    twice in the batch, and whose engagement factor is a finite number,
    scores zero and is not flagged as trending. *)
Theorem unrepeated_article_not_trending
  (h : list pyval) (articles scored : list article) (st1 : TrendScorer)
  (i : nat) (a : article) :
  score_articles log10 now (fresh_scorer h) articles = Ok (st1, scored) ->
  nth_error articles i = Some a ->
  (forall t, In t (_extract_terms (text_of a)) ->
     (count_occ string_dec (batch_terms articles) t < 2)%nat) ->
  (forall factor, _engagement_factor log10 a = Ok factor ->
     is_finite factor = true) ->
  exists a',
    nth_error scored i = Some a'
    /\ (trend_score a' =? 0)%float = true
    /\ is_trending a' = false.
Proof.
  intros H Hi Hterms Hfin.
  destruct (score_articles_phases _ _ _ _ _ _ H) as (-> & ts & rated & Hts & Hr & ->).
  destruct (map_each_nth _ _ _ Hr i a Hi) as (b & Hb & Hs).
  destruct (score_article_fields _ _ _ _ _ Hs) as (factor & Hf & ->).
  assert (Hmax : max_term_score ts a = 0%float).
  { apply max_term_score_zero. intros t Ht.
    unfold score_terms in Hts.
    rewrite (score_terms_untouched _ _ _ _ t Hts); [reflexivity|].
    intros c Hc.
    assert (Hnd : NoDup (map fst (current_mentions
                                    (count_mentions (fresh_scorer h) articles))))
      by (apply count_mentions_NoDup; constructor).
    rewrite <- (count_of_In _ _ _ Hnd Hc), count_mentions_fresh.
    specialize (Hterms t Ht). lia. }
  rewrite Hmax in Hb.
  destruct (mul_zero_finite 0 factor false eq_refl (Hfin _ Hf)) as (s1 & H1).
  destruct (mul_zero_finite _ _ s1 H1
              (temporal_weight_finite
                 (match published a with Some d => d | None => now end)))
    as (s2 & H2).
  rewrite (py_round2_zero _ _ H2) in Hb.
  eexists. split; [rewrite nth_error_map, Hb; reflexivity|].
  unfold flag_trending. cbn [trend_score is_trending set_is_trending set_trend_score].
  split; [exact (eqb_zero _ _ H2)|].
  exact (trending_bar_above_zero _ _ _ H2).
Qed.

(** ** A batch without a repeated term *)

Lemma score_terms_skip (st : TrendScorer) (items : list (string * Z))
  (acc : list (string * float)) :
  (forall t c, In (t, c) items -> c < 2) ->
  for_each (score_term st) items acc = Ok acc.
Proof.
  induction items as [|[t c] items IH]; intros H; simpl; [reflexivity|].
  assert (Hc : c < 2) by (apply (H t); now left).
  apply Z.ltb_lt in Hc. rewrite Hc. cbn [bind].
  apply IH. intros t' c' Hin. apply (H t'). now right.
Qed.

Lemma topic_of_skip (st : TrendScorer) (items : list (string * Z))
  (acc : list (string * topic)) :
  (forall t c, In (t, c) items -> c < 2) ->
  for_each (topic_of st) items acc = Ok acc.
Proof.
  induction items as [|[t c] items IH]; intros H; simpl; [reflexivity|].
  assert (Hc : c < 2) by (apply (H t); now left).
  apply Z.ltb_lt in Hc. rewrite Hc. cbn [bind].
  apply IH. intros t' c' Hin. apply (H t'). now right.
Qed.

Lemma round2_zero_weight (d : Z) :
  py_round2 (0 * 1 * _temporal_weight now d)%float = 0%float.
Proof.
  unfold _temporal_weight.
  repeat match goal with |- context [if ?b then _ else _] => destruct b end;
    reflexivity.
Qed.

(** X9. A batch in which no term is met twice never reads the history:
    whatever the history of a new scorer holds, well formed or not, the
    pass returns, every article without engagement data scores 0.0 and is
    not trending, and there is no trending topic.  The empty batch is the
    first such batch. *)
Theorem quiet_batch_ignores_history (h : list pyval) (articles : list article) :
  (forall t, (count_occ string_dec (batch_terms articles) t < 2)%nat) ->
  (forall a, In a articles -> engagement a = None) ->
  score_articles log10 now (fresh_scorer h) articles
  = Ok (count_mentions (fresh_scorer h) articles,
        map (fun a => set_is_trending (set_trend_score a 0%float) false) articles)
  /\ get_trending_topics (count_mentions (fresh_scorer h) articles) articles
     = Ok [].
Proof.
  intros Hquiet Heng.
  set (st1 := count_mentions (fresh_scorer h) articles).
  assert (Hlow : forall t c, In (t, c) (current_mentions st1) -> c < 2).
  { intros t c Hc.
    assert (Hnd : NoDup (map fst (current_mentions st1)))
      by (apply count_mentions_NoDup; constructor).
    rewrite <- (count_of_In _ _ _ Hnd Hc). unfold st1.
    rewrite count_mentions_fresh. specialize (Hquiet t). lia. }
  split.
  - unfold score_articles. fold st1. unfold score_terms.
    rewrite (score_terms_skip st1 _ [] Hlow). cbn [bind].
    rewrite (map_each_Ok_map _ (fun a => set_trend_score a 0%float)).
    + cbn [bind]. rewrite map_map. f_equal. f_equal.
      apply map_ext. intros a. unfold flag_trending.
      cbn [trend_score set_trend_score].
      now rewrite (trending_bar_above_zero _ 0%float false eq_refl).
    + intros a Ha. unfold score_article.
      rewrite (engagement_factor_absent log10 a (Heng a Ha)). cbn [bind].
      rewrite (max_term_score_zero [] a (fun _ _ => eq_refl)).
      now rewrite round2_zero_weight.
  - unfold get_trending_topics.
    rewrite (topic_of_skip st1 _ []); [reflexivity|].
    intros t c Hc. apply (Hlow t). eapply most_common_In, Hc.
Qed.


(** ** The records of the trending topics *)

Lemma set_add_inv (x y : string) (s : list string) :
  In y (set_add x s) -> y = x \/ In y s.
Proof.
  unfold set_add. destruct (str_in x s); intros H; [now right|].
  apply in_app_or in H as [H|[<-|[]]]; auto.
Qed.

Lemma str_in_true (t : string) (l : list string) : str_in t l = true -> In t l.
Proof.
  unfold str_in. intros H. apply existsb_exists in H as (u & Hu & E).
  apply String.eqb_eq in E. now subst u.
Qed.

(** Every source recorded for a term by a new scorer is the source of an
    article of the batch in which the term was found. *)
Lemma count_mentions_sources_from (articles : list article) (t src : string) :
  forall st,
    In src (sources_of (current_sources (count_mentions st articles)) t) ->
    In src (sources_of (current_sources st) t)
    \/ exists a, In a articles /\ source_of a = src
                 /\ In t (_extract_terms (text_of a)).
Proof.
  induction articles as [|a articles IH]; intros st H; [now left|].
  cbn [count_mentions fold_left] in H. apply IH in H as [H|(b & Hb & Hs & Ht)].
  - unfold count_article in H. rewrite count_terms_sources in H.
    destruct (str_in t (_extract_terms (text_of a))) eqn:E; [|now left].
    apply set_add_inv in H as [->|H]; [|now left].
    right. exists a. split; [now left|]. split; [reflexivity|].
    now apply str_in_true.
  - right. exists b. split; [now right|]. auto.
Qed.

(** X10. In the topics a new scorer reports after one pass, the mentions
    of a record are the occurrences of its term among the terms of the
    batch; the number of its sources is at least one and at most its
    mentions; the sources listed are the first five at most, without
    repetition, and each is the source of an article of the batch in which
    the term was found. *)
Theorem trending_topics_sources
  (h : list pyval) (articles scored : list article) (st1 : TrendScorer)
  (topics : list topic) :
  score_articles log10 now (fresh_scorer h) articles = Ok (st1, scored) ->
  get_trending_topics st1 articles = Ok topics ->
  forall r, In r topics ->
    topic_mentions r
    = Z.of_nat (count_occ string_dec (batch_terms articles) (topic_term r))
    /\ (1 <= topic_num_sources r)%nat
    /\ Z.of_nat (topic_num_sources r) <= topic_mentions r
    /\ List.length (topic_sources r) = Nat.min 5 (topic_num_sources r)
    /\ NoDup (topic_sources r)
    /\ (forall src, In src (topic_sources r) ->
          exists a, In a articles /\ source_of a = src
                    /\ In (topic_term r) (_extract_terms (text_of a))).
Proof.
  intros H Htopics r Hr.
  destruct (score_articles_phases _ _ _ _ _ _ H) as (-> & _).
  destruct (get_trending_topics_from _ _ _ Htopics r Hr) as (v & avg & Hfrom).
  destruct Hfrom as [Hitem Hcount _ _ _ Hsrc Hnum _ _ _].
  assert (Hnd : NoDup (map fst (current_mentions
                                  (count_mentions (fresh_scorer h) articles))))
    by (apply count_mentions_NoDup; constructor).
  pose proof (count_of_In _ _ _ Hnd Hitem) as Hc.
  destruct (count_mentions_consistent articles _ (fresh_scorer_consistent h)
              (topic_term r)) as (Hle & Hpos & Hnds).
  rewrite Hc in Hle, Hpos. rewrite <- Hnum in Hle, Hpos.
  split; [rewrite <- Hc; apply count_mentions_fresh|].
  split; [apply Hpos; lia|]. split; [exact Hle|].
  split; [rewrite Hsrc, length_firstn, Hnum; reflexivity|].
  split; [rewrite Hsrc; now apply NoDup_firstn|].
  intros src Hin. rewrite Hsrc in Hin. apply firstn_In in Hin.
  apply count_mentions_sources_from in Hin as [[]|Hin]. exact Hin.
Qed.

End FurtherScoring.

Lemma for_each_invariant {A S : Type} (P : S -> Prop)
  (body : S -> A -> result S) (l : list A) :
  (forall acc x acc', In x l -> P acc -> body acc x = Ok acc' -> P acc') ->
  forall acc final, P acc -> for_each body l acc = Ok final -> P final.
Proof.
  induction l as [|x l IH]; intros Hbody acc final Hacc H; simpl in H.
  - inv_Ok H. exact Hacc.
  - inv_bind H. apply (IH (fun acc0 y acc' Hy => Hbody acc0 y acc' (or_intror Hy))
                          v final); [|exact H].
    apply (Hbody acc x v); auto. now left.
Qed.

Lemma dict_set_keys {V : Type} (d : list (string * V)) (k k' : string) (v : V) :
  In k' (map fst (dict_set d k v)) <-> k' = k \/ In k' (map fst d).
Proof.
  induction d as [|[k0 w] d IH]; simpl.
  - intuition congruence.
  - destruct (String.eqb k0 k) eqn:E; simpl.
    + apply String.eqb_eq in E. subst k0. intuition congruence.
    + rewrite IH. intuition congruence.
Qed.

Lemma dict_set_NoDup {V : Type} (d : list (string * V)) (k : string) (v : V) :
  NoDup (map fst d) -> NoDup (map fst (dict_set d k v)).
Proof.
  induction d as [|[k0 w] d IH]; simpl; intros H.
  - repeat constructor. intros [].
  - destruct (String.eqb k0 k) eqn:E; simpl; [exact H|].
    inversion H as [|? ? Hnotin Hnd]; subst. constructor; [|now apply IH].
    rewrite dict_set_keys. intros [->|Hin]; [|contradiction].
    now rewrite String.eqb_refl in E.
Qed.

Lemma Sorted_firstn {A : Type} (R : A -> A -> Prop) (n : nat) (l : list A) :
  Sorted R l -> Sorted R (firstn n l).
Proof.
  revert l. induction n as [|n IH]; intros l H; [constructor|].
  destruct l as [|a l]; [constructor|]. simpl.
  inversion H as [|? ? Hs Hhd]; subst. constructor; [now apply IH|].
  destruct n; [constructor|]. destruct l; [constructor|].
  simpl. inversion Hhd; subst. now constructor.
Qed.

Lemma dict_set_In {V : Type} (d : list (string * V)) (k : string) (v : V)
  (kv : string * V) :
  In kv (dict_set d k v) -> kv = (k, v) \/ In kv d.
Proof.
  induction d as [|[k0 w] d IH]; simpl.
  - intros [<-|[]]. now left.
  - destruct (String.eqb k0 k) eqn:E; simpl.
    + apply String.eqb_eq in E. subst k0. intros [<-|H]; auto.
    + intros [<-|H]; auto. apply IH in H as [H|H]; auto.
Qed.

Lemma topic_of_keyed (st : TrendScorer) (acc acc' : list (string * topic))
  (item : string * Z) :
  keyed_by_term acc -> topic_of st acc item = Ok acc' -> keyed_by_term acc'.
Proof.
  intros [Hnd Hkey] H. destruct item as [t c]. unfold topic_of in H.
  destruct (c <? 2); [inv_Ok H; now split|].
  inv_bind H. destruct (v <? 1)%float; [inv_Ok H; now split|].
  inv_bind H. inv_Ok H. split; [now apply dict_set_NoDup|].
  intros kv Hkv. apply dict_set_In in Hkv as [->|Hkv]; [reflexivity|now apply Hkey].
Qed.

(** X11. The topics [get_trending_topics] returns are at most fifteen, no
    two of them for the same term, and in the order of their scores: none
    is followed by a topic with a strictly higher score. *)
Theorem trending_topics_ranked
  (st : TrendScorer) (articles : list article) (topics : list topic) :
  get_trending_topics st articles = Ok topics ->
  (List.length topics <= 15)%nat
  /\ NoDup (map topic_term topics)
  /\ Sorted (not_below PrimFloat.ltb topic_score) topics.
Proof.
  intros H. unfold get_trending_topics in H. inv_bind H. inv_Ok H.
  assert (Hkeyed : keyed_by_term v).
  { apply (for_each_invariant keyed_by_term (topic_of st)
             (most_common 100 (current_mentions st))
             (fun acc x acc' _ Hacc Hb => topic_of_keyed st acc acc' x Hacc Hb)
             [] v); [|exact E].
    split; [constructor|intros kv []]. }
  destruct Hkeyed as [Hnd Hkey].
  split; [rewrite length_firstn; unfold TOP_TRENDING_COUNT; lia|].
  split.
  - rewrite <- firstn_map. apply NoDup_firstn.
    apply (Permutation_NoDup
             (l := map topic_term (map snd v))).
    + apply Permutation_map, Permutation_sym, sorted_desc_perm.
    + rewrite map_map.
      rewrite (map_ext_in (fun kv => topic_term (snd kv)) fst v Hkey).
      exact Hnd.
  - apply Sorted_firstn, sorted_desc_sorted. exact ltb_asym.
Qed.

Lemma trending_topics_ranked_witness :
  get_trending_topics gpt5_counted gpt5_batch = Ok [gpt5_topic]
  /\ (List.length [gpt5_topic] <= 15)%nat
  /\ NoDup (map topic_term [gpt5_topic])
  /\ Sorted (not_below PrimFloat.ltb topic_score) [gpt5_topic].
Proof.
  assert (Htopics : get_trending_topics gpt5_counted gpt5_batch = Ok [gpt5_topic])
    by (vm_compute; reflexivity).
  split; [exact Htopics|].
  exact (trending_topics_ranked gpt5_counted gpt5_batch _ Htopics).
Defined.

Lemma trending_topics_sources_witness :
  score_articles no_log10 0 (fresh_scorer []) gpt5_batch
  = Ok (gpt5_counted, gpt5_scored)
  /\ get_trending_topics gpt5_counted gpt5_batch = Ok [gpt5_topic]
  /\ (1 <= topic_num_sources gpt5_topic)%nat
  /\ Z.of_nat (topic_num_sources gpt5_topic) <= topic_mentions gpt5_topic
  /\ List.length (topic_sources gpt5_topic)
     = Nat.min 5 (topic_num_sources gpt5_topic).
Proof.
  assert (H : score_articles no_log10 0 (fresh_scorer []) gpt5_batch
              = Ok (gpt5_counted, gpt5_scored)) by (vm_compute; reflexivity).
  assert (Htopics : get_trending_topics gpt5_counted gpt5_batch = Ok [gpt5_topic])
    by (vm_compute; reflexivity).
  split; [exact H|]. split; [exact Htopics|].
  destruct (trending_topics_sources no_log10 0 [] gpt5_batch gpt5_scored
              gpt5_counted [gpt5_topic] H Htopics gpt5_topic (or_introl eq_refl))
    as (_ & H1 & Hle & Hlen & _).
  auto.
Defined.

Lemma score_articles_accumulates_witness :
  score_articles no_log10 0 (fresh_scorer []) gpt5_batch
  = Ok (gpt5_counted, gpt5_scored)
  /\ history gpt5_counted = []
  /\ count_of (current_mentions gpt5_counted) "GPT"
     = 0 + Z.of_nat (count_occ string_dec (batch_terms gpt5_batch) "GPT").
Proof.
  assert (H : score_articles no_log10 0 (fresh_scorer []) gpt5_batch
              = Ok (gpt5_counted, gpt5_scored)) by (vm_compute; reflexivity).
  split; [exact H|].
  destruct (score_articles_accumulates no_log10 0 _ _ _ _ H) as (Hh & Hc & _).
  split; [exact Hh|exact (Hc "GPT")].
Defined.

Lemma trending_flag_monotone_witness :
  score_articles no_log10 0 (fresh_scorer []) mixed_batch
  = Ok (count_mentions (fresh_scorer []) mixed_batch, mixed_scored)
  /\ forall a, In a mixed_scored -> is_trending a = true ->
       (0.5 <=? trend_score a)%float = true.
Proof.
  assert (H : score_articles no_log10 0 (fresh_scorer []) mixed_batch
              = Ok (count_mentions (fresh_scorer []) mixed_batch, mixed_scored))
    by (vm_compute; reflexivity).
  split; [exact H|].
  exact (proj1 (trending_flag_monotone no_log10 0 _ _ _ _ H)).
Defined.

Lemma unrepeated_article_not_trending_witness :
  score_articles no_log10 0 (fresh_scorer []) mixed_batch
  = Ok (count_mentions (fresh_scorer []) mixed_batch, mixed_scored)
  /\ exists a',
       nth_error mixed_scored 3 = Some a'
       /\ (trend_score a' =? 0)%float = true
       /\ is_trending a' = false.
Proof.
  assert (H : score_articles no_log10 0 (fresh_scorer []) mixed_batch
              = Ok (count_mentions (fresh_scorer []) mixed_batch, mixed_scored))
    by (vm_compute; reflexivity).
  split; [exact H|].
  apply (unrepeated_article_not_trending no_log10 0 [] mixed_batch mixed_scored
           _ 3 (sample_article "Nvidia earnings beat" "Reuters") H eq_refl).
  - intros t Ht. vm_compute in Ht. destruct Ht as [<-|[]].
    apply Nat.ltb_lt. vm_compute. reflexivity.
  - intros factor Hf. vm_compute in Hf. inv_Ok Hf. reflexivity.
Defined.

Lemma quiet_batch_terms (t : string) :
  (count_occ string_dec (batch_terms quiet_batch) t < 2)%nat.
Proof.
  change (batch_terms quiet_batch) with ["Nvidia"].
  cbn [count_occ]. destruct (string_dec "Nvidia" t); lia.
Qed.

Lemma quiet_batch_ignores_history_witness :
  score_articles no_log10 0 (fresh_scorer [PInt 3]) quiet_batch
  = Ok (count_mentions (fresh_scorer [PInt 3]) quiet_batch,
        map (fun a => set_is_trending (set_trend_score a 0%float) false)
            quiet_batch)
  /\ get_trending_topics (count_mentions (fresh_scorer [PInt 3]) quiet_batch)
       quiet_batch
     = Ok [].
Proof.
  apply (quiet_batch_ignores_history no_log10 0 [PInt 3] quiet_batch
           quiet_batch_terms).
  intros a Ha. simpl in Ha. destruct Ha as [<-|[<-|[]]]; reflexivity.
Defined.

(** ** Terms the history does not know *)

Lemma truediv_zero (n : nat) :
  py_int_truediv 0 (Z.of_nat (S n)) = Ok 0%float.
Proof. reflexivity. Qed.

Lemma historical_avg_no_mentions (h : list pyval) (term : string) :
  wf_history h = true -> total_mentions term h = 0 ->
  _get_historical_avg h term = Ok 0%float.
Proof.
  intros Hwf Hzero. destruct h as [|s h]; [reflexivity|].
  unfold _get_historical_avg.
  rewrite (map_each_Ok_map _ (fun s => PInt (mentions_in term s))).
  - cbn [bind]. remember (s :: h) as l eqn:El.
    destruct (map (fun s0 => PInt (mentions_in term s0)) l) as [|c cs] eqn:Ec.
    + reflexivity.
    + rewrite <- Ec. unfold py_sum.
      rewrite <- (map_map (mentions_in term) PInt), for_each_int_add.
      cbn [bind]. rewrite !length_map. unfold total_mentions in Hzero.
      rewrite Hzero. subst l. apply truediv_zero.
  - intros x Hx. apply py_get_wf_count.
    unfold wf_history in Hwf. rewrite forallb_forall in Hwf. now apply Hwf.
Qed.

(** X12. On a well-formed history, a term whose retained counts sum to
    zero, as for a term no retained snapshot mentions, is a new term: its
    velocity is 2.0 from two mentions on and 1.5 below, and a record of
    [get_trending_topics] for it has direction "new", velocity 2.0 and
    twice the cross-source bonus, rounded, as its score. *)
Theorem unseen_term_is_new
  (st : TrendScorer) (articles : list article) (topics : list topic) :
  wf_history (history st) = true ->
  get_trending_topics st articles = Ok topics ->
  (forall t c, total_mentions t (history st) = 0 ->
     _calculate_velocity (history st) t c
     = Ok (if 2 <=? c then 2%float else 1.5%float))
  /\ (forall r, In r topics ->
        total_mentions (topic_term r) (history st) = 0 ->
        topic_direction r = "new"
        /\ topic_velocity r = 2%float
        /\ topic_score r
           = py_round2 (2 * cross_source_bonus (topic_num_sources r))%float).
Proof.
  intros Hwf Htopics.
  assert (Hvel : forall t c, total_mentions t (history st) = 0 ->
            _calculate_velocity (history st) t c
            = Ok (if 2 <=? c then 2%float else 1.5%float)).
  { intros t c Hz. unfold _calculate_velocity.
    rewrite (historical_avg_no_mentions _ _ Hwf Hz). reflexivity. }
  split; [exact Hvel|].
  intros r Hr Hz.
  destruct (get_trending_topics_from _ _ _ Htopics r Hr) as (v & a & Hfrom).
  destruct Hfrom as [_ Hc Hv _ Ha _ _ Hrv Hdir Hscore].
  rewrite (Hvel _ _ Hz) in Hv. rewrite (historical_avg_no_mentions _ _ Hwf Hz) in Ha.
  apply Z.leb_le in Hc. rewrite Hc in Hv. inv_Ok Hv. inv_Ok Ha.
  split; [exact Hdir|]. split; [exact Hrv|exact Hscore].
Qed.

Lemma unseen_term_is_new_witness :
  wf_history (history sample_scorer) = true
  /\ get_trending_topics sample_scorer gpt5_batch
     = Ok (match get_trending_topics sample_scorer gpt5_batch with
           | Ok topics => topics
           | Raise _ => []
           end)
  /\ _calculate_velocity (history sample_scorer) "Nvidia" 3 = Ok 2%float.
Proof.
  assert (Hwf : wf_history (history sample_scorer) = true) by reflexivity.
  assert (Htopics : get_trending_topics sample_scorer gpt5_batch
                    = Ok (match get_trending_topics sample_scorer gpt5_batch with
                          | Ok topics => topics
                          | Raise _ => []
                          end)) by (vm_compute; reflexivity).
  split; [exact Hwf|]. split; [exact Htopics|].
  exact (proj1 (unseen_term_is_new sample_scorer gpt5_batch _ Hwf Htopics)
           "Nvidia" 3 eq_refl).
Defined.

(** ** Exceptions that leave the pass *)

Lemma map_each_raises {A B : Type} (f : A -> result B) (e : exn) (l : list A) :
  (forall x, In x l -> (exists y, f x = Ok y) \/ f x = Raise e) ->
  (exists x, In x l /\ f x = Raise e) ->
  map_each f l = Raise e.
Proof.
  induction l as [|x l IH]; intros Hall (x0 & Hin & Hx0); [destruct Hin|].
  simpl. destruct (Hall x (or_introl eq_refl)) as [(y & Hy)|Hr].
  - rewrite Hy. cbn [bind]. rewrite IH; [reflexivity| |].
    + intros z Hz. apply Hall. now right.
    + destruct Hin as [->|Hin]; [congruence|eauto].
  - now rewrite Hr.
Qed.

Lemma for_each_raises {A S : Type} (body : S -> A -> result S) (e : exn)
  (l : list A) :
  (forall acc x, In x l -> (exists acc', body acc x = Ok acc') \/ body acc x = Raise e) ->
  (exists x, In x l /\ forall acc, body acc x = Raise e) ->
  forall acc, for_each body l acc = Raise e.
Proof.
  induction l as [|x l IH]; intros Hall (x0 & Hin & Hx0) acc; [destruct Hin|].
  simpl. destruct (Hall acc x (or_introl eq_refl)) as [(acc' & Hy)|Hr].
  - rewrite Hy. cbn [bind]. apply IH.
    + intros acc0 z Hz. apply Hall. now right.
    + destruct Hin as [->|Hin]; [rewrite Hx0 in Hy; discriminate|eauto].
  - now rewrite Hr.
Qed.

Lemma snapshot_count_outcomes (term : string) (s : pyval) :
  if mentions_unreadable s
  then snapshot_count term s = Raise AttributeError
  else exists c, snapshot_count term s = Ok c.
Proof.
  unfold mentions_unreadable, snapshot_count.
  destruct s as [| | | | | |d]; try reflexivity. simpl.
  destruct (assoc_get d "mentions") as [[| | | | | |m]|]; simpl; eauto.
Qed.

Lemma historical_avg_unreadable (h : list pyval) (term : string) :
  existsb mentions_unreadable h = true ->
  _get_historical_avg h term = Raise AttributeError.
Proof.
  intros H. unfold _get_historical_avg.
  destruct h as [|s h]; [discriminate|].
  rewrite (map_each_raises (snapshot_count term) AttributeError); [reflexivity| |].
  - intros x _. pose proof (snapshot_count_outcomes term x) as Hx.
    destruct (mentions_unreadable x); auto.
  - apply existsb_exists in H as (x & Hin & Hx). exists x. split; [exact Hin|].
    pose proof (snapshot_count_outcomes term x) as Hx'. now rewrite Hx in Hx'.
Qed.

Lemma count_of_pos_In (cm : list (string * Z)) (t : string) :
  count_of cm t <> 0 -> In (t, count_of cm t) cm.
Proof.
  unfold count_of. destruct (assoc_get cm t) as [c|] eqn:E; [|congruence].
  intros _. now apply assoc_get_In.
Qed.

Section PassErrors.

Variable log10 : Z -> float.
Variable now : Z.

(** X13. Scoring does not check the history it was given.  When a retained
    snapshot is no dictionary, or holds a "mentions" entry that is no
    dictionary, a pass of the new scorer over a batch in which some term is
    met twice raises [AttributeError]. *)
Theorem unreadable_history_raises
  (h : list pyval) (articles : list article) (t : string) :
  existsb mentions_unreadable h = true ->
  (2 <= count_occ string_dec (batch_terms articles) t)%nat ->
  score_articles log10 now (fresh_scorer h) articles = Raise AttributeError.
Proof.
  intros Hbad Htwice. unfold score_articles.
  set (st1 := count_mentions (fresh_scorer h) articles).
  assert (Hh : history st1 = h)
    by (destruct (count_mentions_mentions (fresh_scorer h) articles) as [_ Hh];
        exact Hh).
  assert (Hvel : forall u c, _calculate_velocity (history st1) u c
                             = Raise AttributeError).
  { intros u c. unfold _calculate_velocity.
    now rewrite Hh, (historical_avg_unreadable h u Hbad). }
  unfold score_terms.
  rewrite (for_each_raises (score_term st1) AttributeError); [reflexivity| |].
  - intros acc [u c] _. unfold score_term.
    destruct (c <? 2); [left; eauto|]. right. now rewrite Hvel.
  - exists (t, count_of (current_mentions st1) t).
    assert (Hc : count_of (current_mentions st1) t
                 = Z.of_nat (count_occ string_dec (batch_terms articles) t))
      by apply count_mentions_fresh.
    split; [apply count_of_pos_In; lia|].
    intros acc. unfold score_term.
    destruct (count_of (current_mentions st1) t <? 2) eqn:E;
      [apply Z.ltb_lt in E; lia|].
    now rewrite Hvel.
Qed.

Lemma engagement_factor_outcomes (a : article) :
  (exists factor, _engagement_factor log10 a = Ok factor)
  \/ _engagement_factor log10 a = Raise ValueError.
Proof.
  unfold _engagement_factor.
  destruct (engagement a) as [[|kv m]|]; eauto.
  destruct (_ =? 0); eauto. destruct (_ <=? 0); eauto.
Qed.

Lemma engagement_factor_negative (a : article) (metrics : list (string * Z)) :
  engagement a = Some metrics -> engagement_total metrics < 0 ->
  _engagement_factor log10 a = Raise ValueError.
Proof.
  intros He Hneg. unfold _engagement_factor. rewrite He.
  destruct metrics as [|kv m]; [unfold engagement_total in Hneg; simpl in Hneg; lia|].
  fold (engagement_total (kv :: m)).
  destruct (engagement_total (kv :: m) =? 0) eqn:E0; [apply Z.eqb_eq in E0; lia|].
  destruct (1 + engagement_total (kv :: m) <=? 0) eqn:E1; [reflexivity|].
  apply Z.leb_gt in E1. lia.
Qed.

(** X14. The engagement factor takes the logarithm of one plus the
    weighted sum of the metrics without checking its sign.  When the sum of
    an article is negative and phase 2 has returned, the whole pass raises
    [ValueError]: no article of the batch is scored. *)
Theorem negative_engagement_raises
  (st : TrendScorer) (articles : list article) (a : article)
  (metrics : list (string * Z)) (term_scores : list (string * float)) :
  score_terms (count_mentions st articles) = Ok term_scores ->
  In a articles ->
  engagement a = Some metrics ->
  engagement_total metrics < 0 ->
  score_articles log10 now st articles = Raise ValueError.
Proof.
  intros Hts Hin He Hneg. unfold score_articles. rewrite Hts. cbn [bind].
  rewrite (map_each_raises (score_article log10 now term_scores) ValueError);
    [reflexivity| |].
  - intros x _. unfold score_article.
    destruct (engagement_factor_outcomes x) as [(f & ->)| ->]; cbn [bind]; eauto.
  - exists a. split; [exact Hin|]. unfold score_article.
    now rewrite (engagement_factor_negative a metrics He Hneg).
Qed.

End PassErrors.

Lemma unreadable_history_raises_witness :
  existsb mentions_unreadable [list_snapshot] = true
  /\ (2 <= count_occ string_dec (batch_terms gpt5_batch) "GPT")%nat
  /\ score_articles no_log10 0 (fresh_scorer [list_snapshot]) gpt5_batch
     = Raise AttributeError.
Proof.
  assert (Hbad : existsb mentions_unreadable [list_snapshot] = true) by reflexivity.
  assert (Htwice : (2 <= count_occ string_dec (batch_terms gpt5_batch) "GPT")%nat)
    by (apply Nat.leb_le; vm_compute; reflexivity).
  split; [exact Hbad|]. split; [exact Htwice|].
  exact (unreadable_history_raises no_log10 0 [list_snapshot] gpt5_batch "GPT"
           Hbad Htwice).
Defined.

Lemma negative_engagement_raises_witness :
  score_terms (count_mentions (fresh_scorer []) (gpt5_batch ++ [downvoted_article]))
  = Ok [("GPT", 2.6%float)]
  /\ engagement_total [("upvotes", -3)] < 0
  /\ score_articles no_log10 0 (fresh_scorer []) (gpt5_batch ++ [downvoted_article])
     = Raise ValueError.
Proof.
  assert (Hts : score_terms (count_mentions (fresh_scorer [])
                               (gpt5_batch ++ [downvoted_article]))
                = Ok [("GPT", 2.6%float)]) by (vm_compute; reflexivity).
  assert (Hneg : engagement_total [("upvotes", -3)] < 0) by (vm_compute; reflexivity).
  split; [exact Hts|]. split; [exact Hneg|].
  apply (negative_engagement_raises no_log10 0 (fresh_scorer [])
           (gpt5_batch ++ [downvoted_article]) downvoted_article
           [("upvotes", -3)] _ Hts); [|reflexivity|exact Hneg].
  apply in_or_app. right. now left.
Defined.

(** ** Momentum *)

Lemma topic_direction_cases
  (st : TrendScorer) (articles : list article) (topics : list topic) :
  wf_history (history st) = true ->
  get_trending_topics st articles = Ok topics ->
  forall r, In r topics ->
    topic_direction r = "new" \/ topic_direction r = "up"
    \/ topic_direction r = "stable".
Proof.
  intros Hwf H r Hr.
  destruct (get_trending_topics_from _ _ _ H r Hr)
    as (v & a & [_ _ Hv Hkept _ _ _ _ Hdir _]).
  destruct (calculate_velocity_range_wf _ _ _ _ Hwf Hv) as [Hnan Hle].
  rewrite Hdir. unfold classify_direction.
  destruct (a =? 0)%float; [now left|].
  destruct (1.5 <? v)%float; [now right; left|].
  rewrite (above_one_above_point_eight v Hnan Hkept Hle). now right; right.
Qed.

Lemma momentum_table_ok : momentum_table = true.
Proof. vm_compute. reflexivity. Qed.

Lemma momentum_table_entry (n u : nat) :
  (1 <= n <= 10)%nat -> (u <= n)%nat ->
  let up_ratio := Z_truediv (Z.of_nat u) (Z.of_nat n) in
  ((0.6 <? up_ratio)%float || (0.3 <? up_ratio)%float
   || (Z2F (Z.of_nat n) * 0.5 <? Z2F (Z.of_nat (n - u)))%float) = true
  /\ (u = n -> (0.6 <? up_ratio)%float = true).
Proof.
  intros Hn Hu. pose proof momentum_table_ok as H. unfold momentum_table in H.
  rewrite forallb_forall in H.
  assert (Hin : In n (seq 1 10)) by (apply in_seq; lia).
  specialize (H n Hin). rewrite forallb_forall in H.
  assert (Hin' : In u (seq 0 (S n))) by (apply in_seq; lia).
  specialize (H u Hin'). cbv zeta in H.
  apply andb_true_iff in H as [H1 H2]. cbv zeta. split; [exact H1|].
  intros ->. rewrite Nat.eqb_refl in H2. exact H2.
Qed.

Lemma count_directions (l : list string) :
  Forall (fun d => d = "new" \/ d = "up" \/ d = "stable") l ->
  (count_occ string_dec l "up" + count_occ string_dec l "new"
   + count_occ string_dec l "stable" = List.length l)%nat.
Proof.
  induction 1 as [|d l Hd _ IH]; [reflexivity|].
  cbn [count_occ List.length].
  destruct Hd as [-> | [-> | ->]];
    repeat match goal with
           | |- context [string_dec ?a ?b] =>
               destruct (string_dec a b); try discriminate; try congruence
           end; lia.
Qed.

Lemma count_rising (l : list string) :
  Forall (fun d => d = "new" \/ d = "up") l ->
  (count_occ string_dec l "up" + count_occ string_dec l "new"
   = List.length l)%nat.
Proof.
  induction 1 as [|d l Hd _ IH]; [reflexivity|].
  cbn [count_occ List.length].
  destruct Hd as [-> | ->];
    repeat match goal with
           | |- context [string_dec ?a ?b] =>
               destruct (string_dec a b); try discriminate; try congruence
           end; lia.
Qed.

(** X15. Fed with the topics [get_trending_topics] returns when every
    retained snapshot holds integer counts, the momentum of the summary is
    "quiet" only when there is no topic at all.  Whatever the history, when
    there is a topic and the first ten topics are all new or rising, the
    momentum is "accelerating". *)
Theorem momentum_of_trending_topics
  (st : TrendScorer) (articles : list article) (topics : list topic) :
  get_trending_topics st articles = Ok topics ->
  (wf_history (history st) = true ->
   (_calculate_momentum topics = "quiet" <-> topics = []))
  /\ (topics <> [] ->
      (forall r, In r (firstn 10 topics) ->
         topic_direction r = "new" \/ topic_direction r = "up") ->
      _calculate_momentum topics = "accelerating").
Proof.
  intros H.
  destruct topics as [|r0 topics]; [split; [split; reflexivity|congruence]|].
  set (l := r0 :: topics) in *.
  assert (Hlen : (1 <= List.length (map topic_direction (firstn 10 l)) <= 10)%nat).
  { rewrite length_map, length_firstn. unfold l. simpl List.length. lia. }
  unfold _calculate_momentum. fold l. cbv zeta.
  set (dirs := map topic_direction (firstn 10 l)) in *.
  set (u := (count_occ string_dec dirs "up" + count_occ string_dec dirs "new")%nat).
  rewrite <- Nat2Z.inj_add. fold u.
  destruct (Z.of_nat (List.length dirs) =? 0) eqn:E0; [apply Z.eqb_eq in E0; lia|].
  split.
  - intros Hwf.
    assert (Hdirs : Forall (fun d => d = "new" \/ d = "up" \/ d = "stable") dirs).
    { apply Forall_forall. intros d Hd. apply in_map_iff in Hd as (r & <- & Hr).
      apply (topic_direction_cases st articles l Hwf H). eapply firstn_In, Hr. }
    pose proof (count_directions dirs Hdirs) as Hsum. fold u in Hsum.
    replace (count_occ string_dec dirs "stable") with (List.length dirs - u)%nat
      by lia.
    destruct (momentum_table_entry (List.length dirs) u Hlen ltac:(lia))
      as [Hany _].
    cbv zeta in Hany.
    split; [|discriminate].
    destruct (0.6 <? _)%float; [discriminate|].
    destruct (0.3 <? _)%float; [discriminate|].
    cbn [orb] in Hany. rewrite Hany. discriminate.
  - intros _ Hrising.
    assert (Hu : u = List.length dirs).
    { unfold u. apply count_rising. apply Forall_forall. intros d Hd.
      apply in_map_iff in Hd as (r & <- & Hr). now apply Hrising. }
    destruct (momentum_table_entry (List.length dirs) u Hlen ltac:(lia))
      as [_ Hall].
    cbv zeta in Hall. now rewrite (Hall Hu).
Qed.

Lemma momentum_of_trending_topics_witness :
  get_trending_topics sample_scorer gpt5_batch = Ok [sample_topic]
  /\ wf_history (history sample_scorer) = true
  /\ _calculate_momentum [sample_topic] <> "quiet"
  /\ _calculate_momentum [sample_topic] = "accelerating".
Proof.
  assert (Htopics : get_trending_topics sample_scorer gpt5_batch = Ok [sample_topic])
    by (vm_compute; reflexivity).
  assert (Hwf : wf_history (history sample_scorer) = true) by reflexivity.
  split; [exact Htopics|]. split; [exact Hwf|].
  destruct (momentum_of_trending_topics sample_scorer gpt5_batch _ Htopics)
    as [Hquiet Hacc].
  split.
  - intros Hq. apply (proj1 (Hquiet Hwf)) in Hq. discriminate.
  - apply Hacc; [discriminate|]. intros r [<-|[]]. now right.
Defined.

(** ** Acronyms *)







